(** * DeepLabV3+ with an Xception backbone: the graph built by [deeplabv3p.py]

    The program is a description of a computation graph: Python classes
    that hold lists of Keras layers and thread a tensor through them.  The
    embedding keeps that shape.  A tensor is the pair of its static shape
    (what [x._shape_tuple()] reads) and the symbolic expression that
    produced it; a Keras layer is a constructor carrying the arguments the
    source passes to it; calling a layer either extends the expression and
    computes the new shape, or raises.  Python exceptions are the error
    side of a small result monad. *)

From Stdlib Require Import ZArith Lia.
From stdpp Require Import base list strings gmap.

Local Open Scope Z_scope.
Set Warnings "-register-all".

(** ** Python exceptions and the result monad *)

Inductive PyError : Type :=
| NameError (name : string)
| UnboundLocalError (name : string)
| AttributeError (name : string)
| IndexError
| TypeError
| ValueError (raised_by : string).

Inductive result (A : Type) : Type :=
| Ok (a : A)
| Raise (e : PyError).
Arguments Ok {A} a.
Arguments Raise {A} e.

Definition bind {A B : Type} (m : result A) (k : A -> result B) : result B :=
  match m with
  | Ok a => k a
  | Raise e => Raise e
  end.

Notation "x <- m ;; k" := (bind m (fun x => k))
  (at level 100, m at next level, right associativity).

Definition is_ok {A : Type} (m : result A) : bool :=
  match m with Ok _ => true | Raise _ => false end.

Definition raises {A : Type} (m : result A) : Prop :=
  exists e, m = Raise e.

(** ** The Keras layers the program instantiates *)

Inductive Padding : Type := same | valid.

(** One constructor per [layers.*] class used by the source, with the
    arguments in the order the source passes them.  [Lambda_newaxis] is
    the one lambda of the program, [lambda x: x[:, tf.newaxis, tf.newaxis, :]]. *)
Inductive Layer : Type :=
| ZeroPadding2D (padding : Z * Z)
| Conv2D (filters kernel_size strides : Z) (padding : Padding)
         (use_bias : bool) (dilation_rate : Z)
| DepthwiseConv2D (kernel_size strides : Z) (padding : Padding)
                  (use_bias : bool) (dilation_rate : Z)
| BatchNormalization
| ReLU
| Activation (name : string)
| GlobalAveragePooling2D
| Lambda_newaxis
| Add
| Concatenate.

(** Symbolic values: the data-flow expression of a tensor.  Numerics are
    left uninterpreted. *)
Inductive Expr : Type :=
| EInput
| ECall (l : Layer) (args : list Expr)
| EResize (images : Expr) (size : list Z) (method : string).

Record Tensor : Type := mkTensor {
  shape : list Z;
  value : Expr
}.

(** [x._shape_tuple()[1:3]] *)
Definition slice_1_3 (s : list Z) : list Z := take 2 (drop 1 s).
Definition shape_tuple_1_3 (x : Tensor) : list Z := slice_1_3 (shape x).

(** *** Shape rules of the primitives *)

(** Keras [conv_utils.conv_output_length]. *)
Definition conv_output_length
    (input_length filter_size : Z) (padding : Padding) (stride dilation : Z) : Z :=
  let dilated_filter_size := filter_size + (filter_size - 1) * (dilation - 1) in
  let output_length :=
    match padding with
    | same => input_length
    | valid => input_length - dilated_filter_size + 1
    end in
  (output_length + stride - 1) / stride.

(** Keras normalises the argument of [ZeroPadding2D]: a tuple of two
    integers is (symmetric height pad, symmetric width pad), that is
    [((p0, p0), (p1, p1))] as ((top, bottom), (left, right)). *)
Definition normalized_padding (padding : Z * Z) : (Z * Z) * (Z * Z) :=
  ((padding.1, padding.1), (padding.2, padding.2)).

Definition all_non_negative (dims : list Z) : bool := forallb (Z.leb 0) dims.

(** Merging rule of Keras [_Merge._compute_elemwise_op_output_shape] on
    the aligned trailing dimensions: a dimension of size 1 broadcasts. *)
Fixpoint elemwise_dims (layer : string) (s1 s2 : list Z) : result (list Z) :=
  match s1, s2 with
  | i :: r1, j :: r2 =>
      rest <- elemwise_dims layer r1 r2 ;;
      if i =? 1 then Ok (j :: rest)
      else if j =? 1 then Ok (i :: rest)
      else if i =? j then Ok (i :: rest)
      else Raise (ValueError layer)
  | _, _ => Ok []
  end.

Definition compute_elemwise_op_output_shape
    (layer : string) (shape1 shape2 : list Z) : result (list Z) :=
  let '(s1, s2) :=
    if (length shape1 <? length shape2)%nat
    then (shape2, shape1) else (shape1, shape2) in
  match s2 with
  | [] => Ok s1
  | _ =>
      let n := (length s1 - length s2)%nat in
      dims <- elemwise_dims layer (drop n s1) s2 ;;
      Ok (take n s1 ++ dims)
  end.

(** [_Merge.build] followed by the broadcasting sum: all batch sizes
    agree, the remaining dimensions merge pairwise from the left. *)
Fixpoint merge_shapes (layer : string) (b : Z) (acc : list Z)
    (rest : list (list Z)) : result (list Z) :=
  match rest with
  | [] => Ok (b :: acc)
  | [] :: _ => Raise (ValueError layer)
  | (b' :: s) :: rest' =>
      if b =? b' then
        acc' <- compute_elemwise_op_output_shape layer acc s ;;
        merge_shapes layer b acc' rest'
      else Raise (ValueError layer)
  end.

Definition add_shape (shapes : list (list Z)) : result (list Z) :=
  match shapes with
  | (b :: s) :: (_ :: _) as rest => merge_shapes "Add" b s rest
  | _ => Raise (ValueError "Add")
  end.

(** [Concatenate(axis=-1)]: equal shapes except on the last axis, whose
    sizes add up. *)
Definition split_last (s : list Z) : option (list Z * Z) :=
  match reverse s with
  | [] => None
  | c :: r => Some (reverse r, c)
  end.

Fixpoint concat_shapes (prefix : list Z) (channels : Z)
    (rest : list (list Z)) : result (list Z) :=
  match rest with
  | [] => Ok (prefix ++ [channels])
  | s :: rest' =>
      match split_last s with
      | Some (p, c) =>
          if bool_decide (p = prefix)
          then concat_shapes prefix (channels + c) rest'
          else Raise (ValueError "Concatenate")
      | None => Raise (ValueError "Concatenate")
      end
  end.

Definition concatenate_shape (shapes : list (list Z)) : result (list Z) :=
  match shapes with
  | s :: rest =>
      match split_last s with
      | Some (p, c) => concat_shapes p c rest
      | None => Raise (ValueError "Concatenate")
      end
  | [] => Raise (ValueError "Concatenate")
  end.

(** A convolution whose output would have a negative dimension is
    rejected; an empty output (a dimension of size 0) is returned. *)
Definition checked (layer : string) (s : list Z) : result (list Z) :=
  match s with
  | _ :: dims => if all_non_negative dims then Ok s else Raise (ValueError layer)
  | [] => Raise (ValueError layer)
  end.

Definition layer_shape (l : Layer) (inputs : list (list Z)) : result (list Z) :=
  match l, inputs with
  | ZeroPadding2D p, [[b; h; w; c]] =>
      let '((top_pad, bottom_pad), (left_pad, right_pad)) := normalized_padding p in
      Ok [b; h + top_pad + bottom_pad; w + left_pad + right_pad; c]
  | ZeroPadding2D _, _ => Raise (ValueError "ZeroPadding2D")
  | Conv2D filters k s pad _ d, [[b; h; w; c]] =>
      checked "Conv2D"
        [b; conv_output_length h k pad s d; conv_output_length w k pad s d; filters]
  | Conv2D _ _ _ _ _ _, _ => Raise (ValueError "Conv2D")
  | DepthwiseConv2D k s pad _ d, [[b; h; w; c]] =>
      checked "DepthwiseConv2D"
        [b; conv_output_length h k pad s d; conv_output_length w k pad s d; c]
  | DepthwiseConv2D _ _ _ _ _, _ => Raise (ValueError "DepthwiseConv2D")
  | BatchNormalization, [s] => Ok s
  | BatchNormalization, _ => Raise (ValueError "BatchNormalization")
  | ReLU, [s] => Ok s
  | ReLU, _ => Raise (ValueError "ReLU")
  | Activation _, [s] => Ok s
  | Activation _, _ => Raise (ValueError "Activation")
  | GlobalAveragePooling2D, [[b; h; w; c]] => Ok [b; c]
  | GlobalAveragePooling2D, _ => Raise (ValueError "GlobalAveragePooling2D")
  | Lambda_newaxis, [b :: d :: rest] => Ok (b :: 1 :: 1 :: d :: rest)
  | Lambda_newaxis, _ => Raise IndexError
  | Add, shapes => add_shape shapes
  | Concatenate, shapes => concatenate_shape shapes
  end.

(** Calling a layer object: [layer(x)] or [layer([x1, ..., xn])]. *)
Definition call_layer (l : Layer) (inputs : list Tensor) : result Tensor :=
  s <- layer_shape l (map shape inputs) ;;
  Ok (mkTensor s (ECall l (map value inputs))).

Definition call1 (l : Layer) (x : Tensor) : result Tensor := call_layer l [x].

(** [tf.image.resize(images, size, method)]: [images] of rank 3 or 4 and
    of non-empty spatial extent, [size] two positive integers. *)
Definition resize_shape (s size : list Z) : result (list Z) :=
  match size with
  | [nh; nw] =>
      if (0 <? nh) && (0 <? nw) then
        match s with
        | [b; h; w; c] =>
            if (0 <? h) && (0 <? w) then Ok [b; nh; nw; c]
            else Raise (ValueError "resize")
        | [h; w; c] =>
            if (0 <? h) && (0 <? w) then Ok [nh; nw; c]
            else Raise (ValueError "resize")
        | _ => Raise (ValueError "resize")
        end
      else Raise (ValueError "resize")
  | _ => Raise (ValueError "resize")
  end.

Definition tf_image_resize (images : Tensor) (size : list Z) (method : string)
    : result Tensor :=
  s <- resize_shape (shape images) size ;;
  Ok (mkTensor s (EResize (value images) size method)).

(** *** Constructing a layer

    A layer class validates its arguments when it is instantiated and
    raises [ValueError] on a bad one: a convolution needs a positive
    filter count, kernel size, stride and dilation rate, and refuses a
    stride above 1 together with a dilation rate above 1; a padding
    layer needs non-negative pads. *)
Definition valid_conv_args (kernel_size strides dilation_rate : Z) : bool :=
  (0 <? kernel_size) && (0 <? strides) && (0 <? dilation_rate)
  && negb ((1 <? strides) && (1 <? dilation_rate)).

Definition construct (l : Layer) : result Layer :=
  match l with
  | Conv2D filters k s _ _ d =>
      if (0 <? filters) && valid_conv_args k s d
      then Ok l else Raise (ValueError "Conv2D")
  | DepthwiseConv2D k s _ _ d =>
      if valid_conv_args k s d
      then Ok l else Raise (ValueError "DepthwiseConv2D")
  | ZeroPadding2D p =>
      if (0 <=? p.1) && (0 <=? p.2)
      then Ok l else Raise (ValueError "ZeroPadding2D")
  | _ => Ok l
  end.

(** The loop [for block in blocks: x = block(x)]. *)
Fixpoint sequential {B : Type} (call : B -> Tensor -> result Tensor)
    (blocks : list B) (x : Tensor) : result Tensor :=
  match blocks with
  | [] => Ok x
  | block :: rest => y <- call block x ;; sequential call rest y
  end.

(** ** deeplabv3p.py

    [custom_pad] computes the arguments of the padding layer; the layer
    is instantiated, and its arguments validated, where a constructor
    below calls [construct] on it. *)

Definition custom_pad (k_size d_rate : Z) : Layer :=
  let s := k_size + (k_size - 1) * (d_rate - 1) in
  let pad_s := (s - 1) / 2 in
  let pad_e := (s - 1) - pad_s in
  let pad_layer := ZeroPadding2D (pad_s, pad_e) in
  pad_layer.

(** *** ConvBlock *)

Record ConvBlock : Type := mkConvBlock { conv_blocks : list Layer }.

Definition ConvBlock_init (n_filters k_size stride d_rate : Z)
    : result ConvBlock :=
  let pad_type := if stride =? 1 then same else valid in
  let blocks := [] in
  blocks <-
    (if 1 <? stride then
       pad <- construct (custom_pad k_size d_rate) ;;
       Ok (blocks ++ [pad])
     else Ok blocks) ;;
  conv <- construct (Conv2D n_filters k_size stride pad_type false d_rate) ;;
  Ok (mkConvBlock (blocks ++ [conv])).

Definition ConvBlock_call (self : ConvBlock) (x : Tensor) : result Tensor :=
  sequential call1 (conv_blocks self) x.

(** *** BasicBlock *)

Record BasicBlock : Type := mkBasicBlock { basic_blocks : list Layer }.

Definition BasicBlock_init (n_filters k_size stride d_rate : Z)
    : result BasicBlock :=
  conv <- construct (Conv2D n_filters k_size stride same false 1) ;;
  bn <- construct BatchNormalization ;;
  relu <- construct ReLU ;;
  Ok (mkBasicBlock [conv; bn; relu]).

Definition BasicBlock_call (self : BasicBlock) (x : Tensor) : result Tensor :=
  sequential call1 (basic_blocks self) x.

(** *** SeparableConvBlock *)

(** [self.blocks] keeps [None] placeholders; [call] skips them. *)
Record SeparableConvBlock : Type := mkSeparableConvBlock {
  sep_blocks : list (option Layer)
}.

(** The elements of the list literal are instantiated left to right. *)
Definition SeparableConvBlock_init
    (n_filters k_size stride d_rate : Z) (activation : bool)
    : result SeparableConvBlock :=
  let pad_type := if stride =? 1 then same else valid in
  pad <-
    (if 1 <? stride then
       pad <- construct (custom_pad k_size d_rate) ;; Ok (Some pad)
     else Ok None) ;;
  depthwise <-
    construct (DepthwiseConv2D k_size stride pad_type false d_rate) ;;
  pointwise <- construct (Conv2D n_filters 1 1 same false 1) ;;
  Ok (mkSeparableConvBlock
        [ pad;
          if negb activation then Some ReLU else None;
          Some depthwise;
          Some BatchNormalization;
          if activation then Some ReLU else None;
          Some pointwise;
          Some BatchNormalization;
          if activation then Some ReLU else None ]).

Definition call_optional (block : option Layer) (x : Tensor) : result Tensor :=
  match block with
  | Some l => call1 l x
  | None => Ok x
  end.

Definition SeparableConvBlock_call (self : SeparableConvBlock) (x : Tensor)
    : result Tensor :=
  sequential call_optional (sep_blocks self) x.

(** *** XceptionBlock *)

(** What a Python call returns here: one tensor, or the tuple of
    [return out, skip]. *)
Inductive PyValue : Type :=
| VTensor (t : Tensor)
| VTuple (out skip : Tensor).

(** [skipconv] and [skipbn] are attributes only of an instance built with
    [skip_type == "conv"]. *)
Record XceptionBlock : Type := mkXceptionBlock {
  sepconv_blocks : list SeparableConvBlock;
  skip_type : option string;
  return_skip : bool;
  add : Layer;
  skipconv : option ConvBlock;
  skipbn : option Layer
}.

(** [n_filters[i]] and [n_filters[-1]] *)
Definition getitem (l : list Z) (i : nat) : result Z :=
  match l !! i with
  | Some v => Ok v
  | None => Raise IndexError
  end.

Definition getitem_last (l : list Z) : result Z :=
  match last l with
  | Some v => Ok v
  | None => Raise IndexError
  end.

(** A list comprehension whose element expression may raise. *)
Fixpoint comprehension {A B : Type} (f : A -> result B) (l : list A)
    : result (list B) :=
  match l with
  | [] => Ok []
  | a :: rest => b <- f a ;; bs <- comprehension f rest ;; Ok (b :: bs)
  end.

Definition XceptionBlock_init (n_filters : list Z) (skip_type : option string)
    (stride d_rate : Z) (activation return_skip : bool) : result XceptionBlock :=
  sepconv_blocks <-
    comprehension
      (fun i : nat =>
         f <- getitem n_filters i ;;
         SeparableConvBlock_init f 3
           (if bool_decide (i = 2%nat) then stride else 1) d_rate activation)
      (seq 0 3) ;;
  if bool_decide (skip_type = Some "conv") then
    f <- getitem_last n_filters ;;
    skipconv <- ConvBlock_init f 1 stride 1 ;;
    Ok (mkXceptionBlock sepconv_blocks skip_type return_skip Add
          (Some skipconv) (Some BatchNormalization))
  else
    Ok (mkXceptionBlock sepconv_blocks skip_type return_skip Add None None).

(** [for i, block in enumerate(self.sepconv_blocks)], with [skip] unbound
    until the iteration [i == 1] assigns it. *)
Fixpoint sepconv_loop (i : nat) (blocks : list SeparableConvBlock)
    (residual : Tensor) (skip : option Tensor) : result (Tensor * option Tensor) :=
  match blocks with
  | [] => Ok (residual, skip)
  | block :: rest =>
      residual <- SeparableConvBlock_call block residual ;;
      let skip := if bool_decide (i = 1%nat) then Some residual else skip in
      sepconv_loop (S i) rest residual skip
  end.

Definition attribute {A : Type} (name : string) (a : option A) : result A :=
  match a with
  | Some v => Ok v
  | None => Raise (AttributeError name)
  end.

Definition local {A : Type} (name : string) (a : option A) : result A :=
  match a with
  | Some v => Ok v
  | None => Raise (UnboundLocalError name)
  end.

Definition XceptionBlock_call (self : XceptionBlock) (x : Tensor) : result PyValue :=
  rs <- sepconv_loop 0 (sepconv_blocks self) x None ;;
  let residual := rs.1 in
  let skip := rs.2 in
  out <-
    (if bool_decide (skip_type self = Some "conv") then
       conv <- attribute "skipconv" (skipconv self) ;;
       out <- ConvBlock_call conv x ;;
       bn <- attribute "skipbn" (skipbn self) ;;
       out <- call1 bn out ;;
       out <- call_layer (add self) [residual; out] ;;
       Ok (Some out)
     else if bool_decide (skip_type self = Some "sum") then
       out <- call_layer (add self) [residual; x] ;;
       Ok (Some out)
     else if bool_decide (skip_type self = None) then
       Ok (Some residual)
     else Ok None) ;;
  if return_skip self then
    out <- local "out" out ;;
    skip <- local "skip" skip ;;
    Ok (VTuple out skip)
  else
    out <- local "out" out ;;
    Ok (VTensor out).

(** *** XceptionBackbone *)

(** The flows are lists that mix [BasicBlock] and [XceptionBlock] objects. *)
Inductive FlowBlock : Type :=
| FBasic (b : BasicBlock)
| FXception (b : XceptionBlock).

Record XceptionBackbone : Type := mkXceptionBackbone {
  entry_flow : list FlowBlock;
  middle_flow : list FlowBlock;
  exit_flow : list FlowBlock
}.

Definition d_rates_backbone (output_stride : Z) : Z * Z * Z :=
  if output_stride =? 8 then (2, 2, 4) else (1, 1, 2).

Definition XceptionBackbone_init (output_stride : Z) : result XceptionBackbone :=
  let x_stride := if output_stride =? 8 then 1 else 2 in
  let d_rates := d_rates_backbone output_stride in
  e1 <- BasicBlock_init 32 3 2 1 ;;
  e2 <- BasicBlock_init 64 3 1 1 ;;
  e3 <- XceptionBlock_init (replicate 3 128) (Some "conv") 2 1 false false ;;
  e4 <- XceptionBlock_init (replicate 3 256) (Some "conv") 2 1 false true ;;
  e5 <- XceptionBlock_init (replicate 3 728) (Some "conv") x_stride 1 false false ;;
  let entry_flow :=
    [ FBasic e1; FBasic e2; FXception e3; FXception e4; FXception e5 ] in
  middle_flow <-
    comprehension
      (fun _ : nat =>
         b <- XceptionBlock_init (replicate 3 728) (Some "sum") 1 d_rates.1.1
                false false ;;
         Ok (FXception b))
      (seq 0 16) ;;
  x1 <- XceptionBlock_init [728; 1024; 1024] (Some "conv") 1 d_rates.1.2
          false false ;;
  x2 <- XceptionBlock_init [1536; 1536; 2048] None 1 d_rates.2 true false ;;
  Ok (mkXceptionBackbone entry_flow middle_flow [FXception x1; FXception x2]).

(** [block(x)]: a tuple left in [x] by a previous block is not a tensor a
    layer accepts. *)
Definition FlowBlock_call (block : FlowBlock) (x : PyValue) : result PyValue :=
  match x with
  | VTensor t =>
      match block with
      | FBasic b => y <- BasicBlock_call b t ;; Ok (VTensor y)
      | FXception b => XceptionBlock_call b t
      end
  | VTuple _ _ => Raise TypeError
  end.

(** The entry loop.  [x, skip = block(x)] at [i == 3] needs the tuple; the
    blocks that [XceptionBackbone_init] builds always return one there. *)
Fixpoint entry_loop (i : nat) (blocks : list FlowBlock)
    (x : PyValue) (skip : option Tensor) : result (PyValue * option Tensor) :=
  match blocks with
  | [] => Ok (x, skip)
  | block :: rest =>
      if bool_decide (i = 3%nat) then
        r <- FlowBlock_call block x ;;
        match r with
        | VTuple x' skip' => entry_loop (S i) rest (VTensor x') (Some skip')
        | VTensor _ => Raise TypeError
        end
      else
        x' <- FlowBlock_call block x ;;
        entry_loop (S i) rest x' skip
  end.

Fixpoint flow_loop (blocks : list FlowBlock) (x : PyValue) : result PyValue :=
  match blocks with
  | [] => Ok x
  | block :: rest => x' <- FlowBlock_call block x ;; flow_loop rest x'
  end.

Definition XceptionBackbone_call (self : XceptionBackbone) (x : Tensor)
    : result (PyValue * Tensor) :=
  xs <- entry_loop 0 (entry_flow self) (VTensor x) None ;;
  let skip := xs.2 in
  x <- flow_loop (middle_flow self) xs.1 ;;
  x <- flow_loop (exit_flow self) x ;;
  skip <- local "skip" skip ;;
  Ok (x, skip).

(** *** ASPP *)

Inductive PoolingBlock : Type :=
| PLayer (l : Layer)
| PBasic (b : BasicBlock).

Definition PoolingBlock_call (block : PoolingBlock) (x : Tensor) : result Tensor :=
  match block with
  | PLayer l => call1 l x
  | PBasic b => BasicBlock_call b x
  end.

Record ASPP : Type := mkASPP {
  block_1x1 : BasicBlock;
  block_3x3_rate_S : SeparableConvBlock;
  block_3x3_rate_M : SeparableConvBlock;
  block_3x3_rate_L : SeparableConvBlock;
  blocks_pooling : list PoolingBlock;
  aspp_concat : Layer;
  concat_1x1 : BasicBlock
}.

Definition d_rates_aspp (output_stride : Z) : Z * Z * Z :=
  if output_stride =? 8 then (12, 24, 36) else (6, 12, 18).

Definition ASPP_init (output_stride : Z) : result ASPP :=
  let d_rates := d_rates_aspp output_stride in
  block_1x1 <- BasicBlock_init 256 1 1 1 ;;
  rate_S <- SeparableConvBlock_init 256 3 1 d_rates.1.1 true ;;
  rate_M <- SeparableConvBlock_init 256 3 1 d_rates.1.2 true ;;
  rate_L <- SeparableConvBlock_init 256 3 1 d_rates.2 true ;;
  pooling <- BasicBlock_init 256 1 1 1 ;;
  concat_1x1 <- BasicBlock_init 256 1 1 1 ;;
  Ok (mkASPP block_1x1 rate_S rate_M rate_L
        [ PLayer GlobalAveragePooling2D;
          PLayer Lambda_newaxis;
          PBasic pooling ]
        Concatenate
        concat_1x1).

(** The five branches, in the order [call] computes them; the pooled
    branch is resized to the height and width read from [x]. *)
Definition ASPP_branches (self : ASPP) (x : Tensor) : result (list Tensor) :=
  x1 <- BasicBlock_call (block_1x1 self) x ;;
  x2 <- SeparableConvBlock_call (block_3x3_rate_S self) x ;;
  x3 <- SeparableConvBlock_call (block_3x3_rate_M self) x ;;
  x4 <- SeparableConvBlock_call (block_3x3_rate_L self) x ;;
  x5 <- sequential PoolingBlock_call (blocks_pooling self) x ;;
  let f_shape := shape_tuple_1_3 x in
  x5 <- tf_image_resize x5 f_shape "bilinear" ;;
  Ok [x1; x2; x3; x4; x5].

Definition ASPP_call (self : ASPP) (x : Tensor) : result Tensor :=
  xs <- ASPP_branches self x ;;
  x <- call_layer (aspp_concat self) xs ;;
  BasicBlock_call (concat_1x1 self) x.

(** *** DeepLabV3Decoder *)

Record DeepLabV3Decoder : Type := mkDeepLabV3Decoder {
  skip_block : BasicBlock;
  dec_concat : Layer;
  sepconv1 : SeparableConvBlock;
  sepconv2 : SeparableConvBlock;
  conv : Layer;
  sigmoid : Layer
}.

Definition DeepLabV3Decoder_init (n_classes : Z) : result DeepLabV3Decoder :=
  skip_block <- BasicBlock_init 48 1 1 1 ;;
  sepconv1 <- SeparableConvBlock_init 256 3 1 1 true ;;
  sepconv2 <- SeparableConvBlock_init 256 3 1 1 true ;;
  conv <- construct (Conv2D n_classes 1 1 same true 1) ;;
  sigmoid <- construct (Activation "sigmoid") ;;
  Ok (mkDeepLabV3Decoder skip_block Concatenate sepconv1 sepconv2 conv sigmoid).

Definition DeepLabV3Decoder_call (self : DeepLabV3Decoder)
    (x skip : Tensor) (input_shape : list Z) : result Tensor :=
  let skip_shape := shape_tuple_1_3 skip in
  x <- tf_image_resize x skip_shape "bilinear" ;;
  skip <- BasicBlock_call (skip_block self) skip ;;
  x <- call_layer (dec_concat self) [x; skip] ;;
  x <- SeparableConvBlock_call (sepconv1 self) x ;;
  x <- SeparableConvBlock_call (sepconv2 self) x ;;
  x <- call1 (conv self) x ;;
  x <- tf_image_resize x input_shape "bilinear" ;;
  call1 (sigmoid self) x.

(** *** DeepLabV3pXc: the body of the class statement *)

Record DeepLabV3pXc : Type := mkDeepLabV3pXc {
  backbone : XceptionBackbone;
  aspp : ASPP;
  decoder : DeepLabV3Decoder
}.

Definition DeepLabV3pXc_init (output_stride n_classes : Z) : result DeepLabV3pXc :=
  backbone <- XceptionBackbone_init output_stride ;;
  aspp <- ASPP_init output_stride ;;
  decoder <- DeepLabV3Decoder_init n_classes ;;
  Ok (mkDeepLabV3pXc backbone aspp decoder).

Definition as_tensor (v : PyValue) : result Tensor :=
  match v with
  | VTensor t => Ok t
  | VTuple _ _ => Raise TypeError
  end.

Definition DeepLabV3pXc_call (self : DeepLabV3pXc) (x : Tensor) : result Tensor :=
  let input_shape := shape_tuple_1_3 x in
  xs <- XceptionBackbone_call (backbone self) x ;;
  let skip := xs.2 in
  x <- as_tensor xs.1 ;;
  x <- ASPP_call (aspp self) x ;;
  x <- DeepLabV3Decoder_call (decoder self) x skip input_shape ;;
  Ok x.

(** ** Loading the module

    The statements of [deeplabv3p.py] run top to bottom when the module is
    imported.  An [import] or a [def] binds a name.  A [class] statement
    first evaluates its base-class expressions in the names bound so far,
    then binds the class; the bodies of its methods are not run, they only
    record the global names they will read when called. *)

Inductive NameExpr : Type :=
| Name (id : string)
| Attribute (v : NameExpr) (attr : string).

Inductive Stmt : Type :=
| Import (module asname : string)
| ImportFrom (module name : string)
| FunctionDef (name : string) (globals_read : list string)
| ClassDef (name : string) (bases : list NameExpr)
           (methods : list (string * list string)).

(** The functions and types of Python's [builtins] module, which a
    module reads without importing them (the exception classes are left
    out; none of them is called [Model] or [Input]). *)
Definition builtins : gset string :=
  list_to_set
    [ "abs"; "all"; "any"; "ascii"; "bin"; "bool"; "breakpoint"; "bytearray";
      "bytes"; "callable"; "chr"; "classmethod"; "compile"; "complex";
      "delattr"; "dict"; "dir"; "divmod"; "enumerate"; "eval"; "exec";
      "filter"; "float"; "format"; "frozenset"; "getattr"; "globals";
      "hasattr"; "hash"; "help"; "hex"; "id"; "input"; "int"; "isinstance";
      "issubclass"; "iter"; "len"; "list"; "locals"; "map"; "max";
      "memoryview"; "min"; "next"; "object"; "oct"; "open"; "ord"; "pow";
      "print"; "property"; "range"; "repr"; "reversed"; "round"; "set";
      "setattr"; "slice"; "sorted"; "staticmethod"; "str"; "sum"; "super";
      "tuple"; "type"; "vars"; "zip" ].

Definition lookup_name (globals : gset string) (id : string) : result unit :=
  if bool_decide (id ∈ globals) || bool_decide (id ∈ builtins)
  then Ok tt else Raise (NameError id).

(** An attribute of an imported module ([layers.Layer]) is taken to
    exist; only the leading name is looked up in the module's globals. *)
Fixpoint eval_name (globals : gset string) (e : NameExpr) : result unit :=
  match e with
  | Name id => lookup_name globals id
  | Attribute v _ => eval_name globals v
  end.

Fixpoint eval_names (globals : gset string) (es : list NameExpr) : result unit :=
  match es with
  | [] => Ok tt
  | e :: rest => _ <- eval_name globals e ;; eval_names globals rest
  end.

Definition exec_stmt (globals : gset string) (s : Stmt) : result (gset string) :=
  match s with
  | Import _ asname => Ok ({[ asname ]} ∪ globals)
  | ImportFrom _ name => Ok ({[ name ]} ∪ globals)
  | FunctionDef name _ => Ok ({[ name ]} ∪ globals)
  | ClassDef name bases _ =>
      _ <- eval_names globals bases ;;
      Ok ({[ name ]} ∪ globals)
  end.

Fixpoint exec_module (globals : gset string) (body : list Stmt)
    : result (gset string) :=
  match body with
  | [] => Ok globals
  | s :: rest => globals' <- exec_stmt globals s ;; exec_module globals' rest
  end.

Definition layers_Layer : NameExpr := Attribute (Name "layers") "Layer".

Definition deeplabv3p_py : list Stmt :=
  [ Import "tensorflow" "tf";
    ImportFrom "tensorflow.keras" "layers";
    FunctionDef "custom_pad" ["layers"];
    ClassDef "ConvBlock" [layers_Layer]
      [ ("__init__", ["super"; "ConvBlock"; "custom_pad"; "layers"]);
        ("call", []) ];
    ClassDef "BasicBlock" [layers_Layer]
      [ ("__init__", ["super"; "BasicBlock"; "layers"]);
        ("call", []) ];
    ClassDef "SeparableConvBlock" [layers_Layer]
      [ ("__init__", ["super"; "SeparableConvBlock"; "custom_pad"; "layers"]);
        ("call", []) ];
    ClassDef "XceptionBlock" [layers_Layer]
      [ ("__init__", ["super"; "XceptionBlock"; "SeparableConvBlock"; "range";
                      "layers"; "ConvBlock"]);
        ("call", ["enumerate"]) ];
    ClassDef "XceptionBackbone" [layers_Layer]
      [ ("__init__", ["super"; "XceptionBackbone"; "BasicBlock";
                      "XceptionBlock"; "range"]);
        ("call", ["enumerate"]) ];
    ClassDef "ASPP" [layers_Layer]
      [ ("__init__", ["super"; "ASPP"; "BasicBlock"; "SeparableConvBlock";
                      "layers"; "tf"]);
        ("call", ["tf"]) ];
    ClassDef "DeepLabV3Decoder" [layers_Layer]
      [ ("__init__", ["super"; "DeepLabV3Decoder"; "BasicBlock"; "layers";
                      "SeparableConvBlock"]);
        ("call", ["tf"]) ];
    ClassDef "DeepLabV3pXc" [Name "Model"]
      [ ("__init__", ["super"; "DeepLabV3pXc"; "XceptionBackbone"; "ASPP";
                      "DeepLabV3Decoder"]);
        ("call", []);
        ("get_summary", ["Input"; "Model"; "print"]) ] ].

(** The names the module's [import] statements bind. *)
Definition imported_names (body : list Stmt) : list string :=
  omap (fun s => match s with
                 | Import _ a => Some a
                 | ImportFrom _ n => Some n
                 | _ => None
                 end) body.

(** The names any statement of the module binds at top level. *)
Definition bound_names (body : list Stmt) : list string :=
  map (fun s => match s with
                | Import _ a => a
                | ImportFrom _ n => n
                | FunctionDef n _ => n
                | ClassDef n _ _ => n
                end) body.

Definition methods_of (body : list Stmt) (class : string)
    : list (string * list string) :=
  mjoin (omap (fun s => match s with
                        | ClassDef n _ ms =>
                            if bool_decide (n = class) then Some ms else None
                        | _ => None
                        end) body).

Definition globals_read_by (body : list Stmt) (class method : string)
    : list string :=
  mjoin (omap (fun m : string * list string =>
                 if bool_decide (m.1 = method) then Some m.2 else None)
              (methods_of body class)).

Definition import_deeplabv3p : result (gset string) :=
  exec_module ∅ deeplabv3p_py.

(** What a caller does to obtain and run the model:
    [from deeplabv3p import DeepLabV3pXc], then
    [model = DeepLabV3pXc(output_stride, n_classes)], then [model(x)]. *)
Definition new_DeepLabV3pXc (output_stride n_classes : Z) : result DeepLabV3pXc :=
  globals <- import_deeplabv3p ;;
  _ <- lookup_name globals "DeepLabV3pXc" ;;
  DeepLabV3pXc_init output_stride n_classes.

Definition forward_pass (output_stride n_classes : Z) (x : Tensor)
    : result Tensor :=
  model <- new_DeepLabV3pXc output_stride n_classes ;;
  DeepLabV3pXc_call model x.

(** The graph input: a tensor of the given shape. *)
Definition input_tensor (s : list Z) : Tensor := mkTensor s EInput.

(** ** Observations on the constructed objects *)

Definition active_layers (b : SeparableConvBlock) : list Layer :=
  omap id (sep_blocks b).

Definition is_relu (l : Layer) : bool :=
  match l with ReLU => true | _ => false end.

Definition is_depthwise (l : Layer) : bool :=
  match l with DepthwiseConv2D _ _ _ _ _ => true | _ => false end.

Fixpoint count_relu (ls : list Layer) : nat :=
  match ls with
  | [] => 0%nat
  | l :: rest => ((if is_relu l then 1 else 0) + count_relu rest)%nat
  end.

Fixpoint before_depthwise (ls : list Layer) : list Layer :=
  match ls with
  | [] => []
  | l :: rest => if is_depthwise l then [] else l :: before_depthwise rest
  end.

Fixpoint after_depthwise (ls : list Layer) : list Layer :=
  match ls with
  | [] => []
  | l :: rest => if is_depthwise l then rest else after_depthwise rest
  end.

Definition depthwise_strides (b : SeparableConvBlock) : list Z :=
  omap (fun l => match l with
                 | DepthwiseConv2D _ s _ _ _ => Some s
                 | _ => None
                 end) (active_layers b).

Definition depthwise_dilations (b : SeparableConvBlock) : list Z :=
  omap (fun l => match l with
                 | DepthwiseConv2D _ _ _ _ d => Some d
                 | _ => None
                 end) (active_layers b).

Definition pointwise_filters (b : SeparableConvBlock) : list Z :=
  omap (fun l => match l with
                 | Conv2D f _ _ _ _ _ => Some f
                 | _ => None
                 end) (active_layers b).

(** Post-activation: no rectifier before the depthwise step, one after
    each of the two normalisations that follow. *)
Definition post_activation (b : SeparableConvBlock) : bool :=
  bool_decide (count_relu (before_depthwise (active_layers b)) = 0%nat)
  && bool_decide (count_relu (after_depthwise (active_layers b)) = 2%nat).

Definition block_filters (b : XceptionBlock) : list Z :=
  mjoin (map pointwise_filters (sepconv_blocks b)).
Definition block_strides (b : XceptionBlock) : list Z :=
  mjoin (map depthwise_strides (sepconv_blocks b)).
Definition block_dilations (b : XceptionBlock) : list Z :=
  mjoin (map depthwise_dilations (sepconv_blocks b)).

(** The (top, bottom), (left, right) padding a layer applies. *)
Definition applied_padding (l : Layer) : option ((Z * Z) * (Z * Z)) :=
  match l with
  | ZeroPadding2D p => Some (normalized_padding p)
  | _ => None
  end.

(** The padding as the specification words it: in each spatial dimension
    [pad_start] zeros before and [pad_end] zeros after. *)
Definition spec_padding (k d : Z) : (Z * Z) * (Z * Z) :=
  let s := k + (k - 1) * (d - 1) in
  let pad_start := (s - 1) / 2 in
  let pad_end := (s - 1) - pad_start in
  ((pad_start, pad_end), (pad_start, pad_end)).

(** The three skip types the specification names. *)
Inductive SkipKind : Type := projected | additive | no_residual.

Definition skip_name (k : SkipKind) : option string :=
  match k with
  | projected => Some "conv"
  | additive => Some "sum"
  | no_residual => None
  end.

(** Two sizes that the merging rule of [Add] rejects: different and
    neither of them 1. *)
Definition incompatible (i j : Z) : Prop := i <> j /\ i <> 1 /\ j <> 1.

(** What the specification says of one Xception block: its three filter
    counts, its skip type, the stride carried by the third separable
    block only, one dilation rate for all three, the activation placement
    and the return-tap flag; a projected shortcut is a 1x1 [ConvBlock] of
    the block's stride and last filter count followed by a normalisation. *)
Definition xception_block_is (b : XceptionBlock) (filters : list Z)
    (kind : SkipKind) (stride d : Z) (post tap : bool) : Prop :=
  block_filters b = filters /\
  skip_type b = skip_name kind /\
  block_strides b = [1; 1; stride] /\
  block_dilations b = [d; d; d] /\
  Forall (fun s => post_activation s = post) (sepconv_blocks b) /\
  return_skip b = tap /\
  match kind with
  | projected =>
      exists f shortcut,
        last filters = Some f /\
        ConvBlock_init f 1 stride 1 = Ok shortcut /\
        skipconv b = Some shortcut /\
        skipbn b = Some BatchNormalization
  | _ => skipconv b = None /\ skipbn b = None
  end.

(** The topology the specification gives the backbone for one value of
    [output_stride]. *)
Definition backbone_topology (output_stride x_stride d0 d1 d2 : Z) : Prop :=
  exists bb e5 m x1 x2,
    XceptionBackbone_init output_stride = Ok bb /\
    d_rates_backbone output_stride = (d0, d1, d2) /\
    length (entry_flow bb) = 5%nat /\
    entry_flow bb !! 4%nat = Some (FXception e5) /\
    xception_block_is e5 [728; 728; 728] projected x_stride 1 false false /\
    middle_flow bb = replicate 16 (FXception m) /\
    xception_block_is m [728; 728; 728] additive 1 d0 false false /\
    exit_flow bb = [FXception x1; FXception x2] /\
    xception_block_is x1 [728; 1024; 1024] projected 1 d1 false false /\
    xception_block_is x2 [1536; 1536; 2048] no_residual 1 d2 true false.

(** The optional padding layer in front of a strided convolution. *)
Definition padding_layers (k_size stride d_rate : Z) : list Layer :=
  if 1 <? stride then [custom_pad k_size d_rate] else [].

Definition pad_type_of (stride : Z) : Padding :=
  if stride =? 1 then same else valid.

(** The Xception block as the specification describes it, over its
    three separable blocks and, for a projected shortcut, its 1x1 block:
    the separable blocks run in sequence; the side tap is the output of
    the second; then the shortcut by skip type; the pair is returned when
    the tap flag is set. *)
Definition spec_XceptionBlock (s1 s2 s3 : SeparableConvBlock)
    (kind : SkipKind) (shortcut : ConvBlock) (tap : bool) (x : Tensor)
    : result PyValue :=
  r1 <- SeparableConvBlock_call s1 x ;;
  r2 <- SeparableConvBlock_call s2 r1 ;;
  r3 <- SeparableConvBlock_call s3 r2 ;;
  out <- match kind with
         | projected =>
             p <- ConvBlock_call shortcut x ;;
             p <- call1 BatchNormalization p ;;
             call_layer Add [r3; p]
         | additive => call_layer Add [r3; x]
         | no_residual => Ok r3
         end ;;
  Ok (if tap then VTuple out r2 else VTensor out).

(** The expression obtained by applying layers one after the other. *)
Fixpoint apply_layers (ls : list Layer) (e : Expr) : Expr :=
  match ls with
  | [] => e
  | l :: rest => apply_layers rest (ECall l [e])
  end.

(** The main path of an Xception block: its three separable blocks. *)
Definition main_path (self : XceptionBlock) (x : Tensor) : result Tensor :=
  rs <- sepconv_loop 0 (sepconv_blocks self) x None ;;
  Ok rs.1.

(** The output length of a strided convolution that keeps alignment. *)
Definition ceil_div (n s : Z) : Z := (n + s - 1) / s.

(** A call that returns a tensor of the given shape. *)
Definition yields (r : result Tensor) (s : list Z) : Prop :=
  exists y, r = Ok y /\ shape y = s.

(** The arguments a convolution accepts: positive kernel size, stride and
    dilation rate, and not both a stride and a dilation rate above 1. *)
Definition conv_args_ok (k s d : Z) : Prop :=
  0 < k /\ 0 < s /\ 0 < d /\ (s = 1 \/ d = 1).

(** The objects the constructors return when they return. *)
Definition conv_block (n_filters k_size stride d_rate : Z) : ConvBlock :=
  mkConvBlock
    (padding_layers k_size stride d_rate
     ++ [Conv2D n_filters k_size stride (pad_type_of stride) false d_rate]).

Definition basic_block (n_filters k_size stride : Z) : BasicBlock :=
  mkBasicBlock
    [Conv2D n_filters k_size stride same false 1; BatchNormalization; ReLU].

Definition separable_block (n_filters k_size stride d_rate : Z)
    (activation : bool) : SeparableConvBlock :=
  mkSeparableConvBlock
    [ if 1 <? stride then Some (custom_pad k_size d_rate) else None;
      if negb activation then Some ReLU else None;
      Some (DepthwiseConv2D k_size stride (pad_type_of stride) false d_rate);
      Some BatchNormalization;
      if activation then Some ReLU else None;
      Some (Conv2D n_filters 1 1 same false 1);
      Some BatchNormalization;
      if activation then Some ReLU else None ].

Definition xception_block (n0 n1 n2 : Z) (kind : SkipKind)
    (stride d : Z) (activation tap : bool) : XceptionBlock :=
  mkXceptionBlock
    [ separable_block n0 3 1 d activation;
      separable_block n1 3 1 d activation;
      separable_block n2 3 stride d activation ]
    (skip_name kind) tap Add
    (match kind with
     | projected => Some (conv_block n2 1 stride 1)
     | _ => None
     end)
    (match kind with
     | projected => Some BatchNormalization
     | _ => None
     end).

(** The object [XceptionBackbone_init] builds, by last-stage stride and
    dilation triple. *)
Definition backbone_of (x_stride d0 d1 d2 : Z) : XceptionBackbone :=
  mkXceptionBackbone
    [ FBasic (basic_block 32 3 2);
      FBasic (basic_block 64 3 1);
      FXception (xception_block 128 128 128 projected 2 1 false false);
      FXception (xception_block 256 256 256 projected 2 1 false true);
      FXception (xception_block 728 728 728 projected x_stride 1 false false) ]
    (replicate 16
       (FXception (xception_block 728 728 728 additive 1 d0 false false)))
    [ FXception (xception_block 728 1024 1024 projected 1 d1 false false);
      FXception (xception_block 1536 1536 2048 no_residual 1 d2 true false) ].

(** The objects [ASPP_init] and [DeepLabV3Decoder_init] build. *)
Definition aspp_of (output_stride : Z) : ASPP :=
  mkASPP
    (basic_block 256 1 1)
    (separable_block 256 3 1 (d_rates_aspp output_stride).1.1 true)
    (separable_block 256 3 1 (d_rates_aspp output_stride).1.2 true)
    (separable_block 256 3 1 (d_rates_aspp output_stride).2 true)
    [ PLayer GlobalAveragePooling2D;
      PLayer Lambda_newaxis;
      PBasic (basic_block 256 1 1) ]
    Concatenate
    (basic_block 256 1 1).

Definition decoder_of (n_classes : Z) : DeepLabV3Decoder :=
  mkDeepLabV3Decoder
    (basic_block 48 1 1)
    Concatenate
    (separable_block 256 3 1 1 true)
    (separable_block 256 3 1 1 true)
    (Conv2D n_classes 1 1 same true 1)
    (Activation "sigmoid").

(** ** The layers an object holds *)

Definition XceptionBlock_layers (b : XceptionBlock) : list Layer :=
  mjoin (map active_layers (sepconv_blocks b))
  ++ [add b]
  ++ from_option conv_blocks [] (skipconv b)
  ++ option_list (skipbn b).

Definition FlowBlock_layers (b : FlowBlock) : list Layer :=
  match b with
  | FBasic b => basic_blocks b
  | FXception b => XceptionBlock_layers b
  end.

Definition XceptionBackbone_layers (bb : XceptionBackbone) : list Layer :=
  mjoin (map FlowBlock_layers (entry_flow bb ++ middle_flow bb ++ exit_flow bb)).

Definition PoolingBlock_layers (b : PoolingBlock) : list Layer :=
  match b with
  | PLayer l => [l]
  | PBasic b => basic_blocks b
  end.

Definition ASPP_layers (a : ASPP) : list Layer :=
  basic_blocks (block_1x1 a)
  ++ active_layers (block_3x3_rate_S a)
  ++ active_layers (block_3x3_rate_M a)
  ++ active_layers (block_3x3_rate_L a)
  ++ mjoin (map PoolingBlock_layers (blocks_pooling a))
  ++ [aspp_concat a]
  ++ basic_blocks (concat_1x1 a).

Definition DeepLabV3Decoder_layers (d : DeepLabV3Decoder) : list Layer :=
  basic_blocks (skip_block d)
  ++ [dec_concat d]
  ++ active_layers (sepconv1 d)
  ++ active_layers (sepconv2 d)
  ++ [conv d; sigmoid d].

(** A convolution that both strides and dilates. *)
Definition strided_and_dilated (l : Layer) : bool :=
  match l with
  | Conv2D _ _ s _ _ d => (1 <? s) && (1 <? d)
  | DepthwiseConv2D _ s _ _ d => (1 <? s) && (1 <? d)
  | _ => false
  end.

Definition has_bias (l : Layer) : bool :=
  match l with
  | Conv2D _ _ _ _ u _ => u
  | DepthwiseConv2D _ _ _ u _ => u
  | _ => false
  end.

(** ** Calling a function of the module

    When a function body runs, each global name it reads is looked up in
    the module's namespace, in the order of the reads. *)
Definition call_reads (globals : gset string) (reads : list string) : result unit :=
  eval_names globals (map Name reads).

(** Every function of a module: (class, name, global names read), the
    class being empty for a top-level [def]. *)
Definition all_functions (body : list Stmt) : list (string * string * list string) :=
  mjoin (map (fun s => match s with
                       | FunctionDef n reads => [("", n, reads)]
                       | ClassDef c _ ms => map (fun m : string * list string => (c, m.1, m.2)) ms
                       | _ => []
                       end) body).

(** The ratio of the input resolution to that of the deepest feature map
    that a value of [output_stride] selects. *)
Definition effective_stride (output_stride : Z) : Z :=
  if output_stride =? 8 then 8 else 16.

(** ** Results *)

(** *** Loading the module *)

Lemma builtins_lack_Model_Input :
  ("Model" ∉ builtins) /\ ("Input" ∉ builtins).
Proof. split; apply (bool_decide_unpack _); by vm_compute. Qed.

Lemma import_raises : import_deeplabv3p = Raise (NameError "Model").
Proof. by vm_compute. Qed.

(** C2.  Importing the module raises [NameError: Model] at the statement
    [class DeepLabV3pXc(Model)]: the ten statements before it run, the
    imports bind only [tf] and [layers], no statement binds [Model] or
    [Input] and neither is a builtin, [get_summary] reads [Input]; so no
    model can be instantiated and no forward pass run. *)
Theorem C2_class_statement_raises_NameError :
  is_ok (exec_module ∅ (take 10 deeplabv3p_py)) = true /\
  (exists methods,
     deeplabv3p_py !! 10%nat
       = Some (ClassDef "DeepLabV3pXc" [Name "Model"] methods) /\
     (globals <- exec_module ∅ (take 10 deeplabv3p_py) ;;
      exec_stmt globals (ClassDef "DeepLabV3pXc" [Name "Model"] methods))
       = Raise (NameError "Model")) /\
  import_deeplabv3p = Raise (NameError "Model") /\
  imported_names deeplabv3p_py = ["tf"; "layers"] /\
  ("Model" ∉ bound_names deeplabv3p_py) /\
  ("Input" ∉ bound_names deeplabv3p_py) /\
  ("Model" ∉ builtins) /\ ("Input" ∉ builtins) /\
  ("Input" ∈ globals_read_by deeplabv3p_py "DeepLabV3pXc" "get_summary") /\
  (forall output_stride n_classes,
     new_DeepLabV3pXc output_stride n_classes = Raise (NameError "Model")) /\
  (forall output_stride n_classes x,
     forward_pass output_stride n_classes x = Raise (NameError "Model")).
Proof.
  split; [by vm_compute|].
  split.
  { eexists. split; [by vm_compute|]. by vm_compute. }
  split; [exact import_raises|].
  split; [by vm_compute|].
  split; [apply (bool_decide_unpack _); by vm_compute|].
  split; [apply (bool_decide_unpack _); by vm_compute|].
  split; [apply builtins_lack_Model_Input|].
  split; [apply builtins_lack_Model_Input|].
  split; [apply (bool_decide_unpack _); by vm_compute|].
  split.
  - intros. unfold new_DeepLabV3pXc. by rewrite import_raises.
  - intros. unfold forward_pass, new_DeepLabV3pXc. by rewrite import_raises.
Qed.

(** *** custom_pad *)

(** The numbers [custom_pad] computes are the specification's
    [pad_start] and [pad_end]. *)
Lemma custom_pad_numbers (k d : Z) :
  custom_pad k d =
    ZeroPadding2D (((k + (k - 1) * (d - 1)) - 1) / 2,
                   ((k + (k - 1) * (d - 1)) - 1)
                   - ((k + (k - 1) * (d - 1)) - 1) / 2).
Proof. reflexivity. Qed.

(** Whenever [(k - 1) * d] is even, which covers every kernel size the
    program passes (3 and 1), the layer pads as the specification says. *)
Lemma custom_pad_even_span (k d : Z) :
  ((k - 1) * d) mod 2 = 0 ->
  applied_padding (custom_pad k d) = Some (spec_padding k d).
Proof.
  intros Heven. unfold custom_pad, applied_padding, spec_padding, normalized_padding.
  cbn [fst snd].
  replace (k + (k - 1) * (d - 1) - 1) with ((k - 1) * d) by lia.
  set (t := (k - 1) * d) in *.
  assert (t - t / 2 = t / 2) as -> by (Z.div_mod_to_equations; lia).
  reflexivity.
Qed.

Lemma custom_pad_kernel3 (d : Z) :
  custom_pad 3 d = ZeroPadding2D (d, d).
Proof.
  unfold custom_pad.
  replace (3 + (3 - 1) * (d - 1) - 1) with (d * 2) by lia.
  rewrite Z.div_mul by lia. f_equal. f_equal. lia.
Qed.

(** C4, at the input where code and claim part.  For [k = 2], [d = 1] the
    span is 2, [pad_start = 0] and [pad_end = 1]; the claim pads each
    dimension with 0 before and 1 after, the layer built from the pair
    [(pad_s, pad_e)] pads the height with 0 on both sides and the width
    with 1 on both sides.  For [k = 3] the two coincide. *)
Theorem C4_custom_pad_pair_is_per_axis :
  custom_pad 2 1 = ZeroPadding2D (0, 1) /\
  applied_padding (custom_pad 2 1) = Some ((0, 0), (1, 1)) /\
  spec_padding 2 1 = ((0, 1), (0, 1)) /\
  applied_padding (custom_pad 2 1) <> Some (spec_padding 2 1) /\
  layer_shape (custom_pad 2 1) [[1; 4; 4; 3]] = Ok [1; 4; 6; 3] /\
  applied_padding (custom_pad 3 1) = Some ((1, 1), (1, 1)) /\
  applied_padding (custom_pad 3 2) = Some ((2, 2), (2, 2)) /\
  applied_padding (custom_pad 3 12) = Some ((12, 12), (12, 12)).
Proof. repeat split; try reflexivity. by vm_compute. Qed.

(** *** Construction *)

Lemma valid_conv_args_true (k s d : Z) :
  valid_conv_args k s d = true <-> conv_args_ok k s d.
Proof.
  unfold valid_conv_args, conv_args_ok.
  rewrite !andb_true_iff, negb_true_iff, andb_false_iff, !Z.ltb_lt, !Z.ltb_ge.
  lia.
Qed.

Lemma construct_conv2d_ok (f k s : Z) (p : Padding) (u : bool) (d : Z) :
  0 < f -> conv_args_ok k s d ->
  construct (Conv2D f k s p u d) = Ok (Conv2D f k s p u d).
Proof.
  intros Hf Hok. cbn [construct].
  apply valid_conv_args_true in Hok. apply Z.ltb_lt in Hf.
  by rewrite Hf, Hok.
Qed.

Lemma construct_conv2d_inv (f k s : Z) (p : Padding) (u : bool) (d : Z)
    (l : Layer) :
  construct (Conv2D f k s p u d) = Ok l ->
  0 < f /\ conv_args_ok k s d /\ l = Conv2D f k s p u d.
Proof.
  cbn [construct].
  destruct (0 <? f) eqn:Hf; destruct (valid_conv_args k s d) eqn:Hok;
    cbn [andb]; try discriminate.
  intros [= <-]. apply Z.ltb_lt in Hf. by apply valid_conv_args_true in Hok.
Qed.

Lemma construct_depthwise_ok (k s : Z) (p : Padding) (u : bool) (d : Z) :
  conv_args_ok k s d ->
  construct (DepthwiseConv2D k s p u d) = Ok (DepthwiseConv2D k s p u d).
Proof.
  intros Hok. cbn [construct]. apply valid_conv_args_true in Hok.
  by rewrite Hok.
Qed.

Lemma construct_depthwise_inv (k s : Z) (p : Padding) (u : bool) (d : Z)
    (l : Layer) :
  construct (DepthwiseConv2D k s p u d) = Ok l ->
  conv_args_ok k s d /\ l = DepthwiseConv2D k s p u d.
Proof.
  cbn [construct]. destruct (valid_conv_args k s d) eqn:Hok; try discriminate.
  intros [= <-]. by apply valid_conv_args_true in Hok.
Qed.

Lemma construct_custom_pad_ok (k d : Z) :
  0 < k -> 0 < d -> construct (custom_pad k d) = Ok (custom_pad k d).
Proof.
  intros Hk Hd. unfold custom_pad. cbn [construct fst snd].
  replace (k + (k - 1) * (d - 1) - 1) with ((k - 1) * d) by lia.
  assert (0 <= (k - 1) * d) by nia.
  set (t := (k - 1) * d) in *.
  assert (0 <= t / 2) as H1%Z.leb_le by (Z.div_mod_to_equations; lia).
  assert (0 <= t - t / 2) as H2%Z.leb_le by (Z.div_mod_to_equations; lia).
  by rewrite H1, H2.
Qed.

Lemma construct_returns_argument (l l' : Layer) : construct l = Ok l' -> l' = l.
Proof.
  destruct l as [[p0 p1]| | | | | | | | |]; cbn [construct];
    repeat case_match; congruence.
Qed.

Lemma BasicBlock_init_ok (n k s d : Z) :
  0 < n -> 0 < k -> 0 < s ->
  BasicBlock_init n k s d = Ok (basic_block n k s).
Proof.
  intros Hn Hk Hs. unfold BasicBlock_init.
  rewrite construct_conv2d_ok by (unfold conv_args_ok; lia). reflexivity.
Qed.

Lemma BasicBlock_init_inv (n k s d : Z) (blk : BasicBlock) :
  BasicBlock_init n k s d = Ok blk ->
  0 < n /\ 0 < k /\ 0 < s /\ blk = basic_block n k s.
Proof.
  unfold BasicBlock_init.
  destruct (construct (Conv2D n k s same false 1)) as [l|] eqn:Hc;
    cbn [bind construct]; [|discriminate].
  apply construct_conv2d_inv in Hc as (Hn & (Hk & Hs & _) & ->).
  by intros [= <-].
Qed.

Lemma SeparableConvBlock_init_ok (n k s d : Z) (activation : bool) :
  0 < n -> conv_args_ok k s d ->
  SeparableConvBlock_init n k s d activation
    = Ok (separable_block n k s d activation).
Proof.
  intros Hn Hok. unfold SeparableConvBlock_init, separable_block, pad_type_of.
  pose proof Hok as (Hk & Hs & Hd & _).
  rewrite construct_custom_pad_ok, construct_depthwise_ok by done.
  rewrite construct_conv2d_ok by (unfold conv_args_ok; lia).
  by destruct (1 <? s).
Qed.

Lemma SeparableConvBlock_init_inv (n k s d : Z) (activation : bool)
    (blk : SeparableConvBlock) :
  SeparableConvBlock_init n k s d activation = Ok blk ->
  0 < n /\ conv_args_ok k s d /\ blk = separable_block n k s d activation.
Proof.
  intros Hinit.
  assert (0 < n /\ conv_args_ok k s d) as [Hn Hok].
  { unfold SeparableConvBlock_init in Hinit.
    destruct (if 1 <? s then _ else _) as [pad|]; cbn [bind] in Hinit;
      [|discriminate].
    destruct (construct (DepthwiseConv2D _ _ _ _ _)) as [dw|] eqn:Hdw;
      cbn [bind] in Hinit; [|discriminate].
    destruct (construct (Conv2D _ _ _ _ _ _)) as [pw|] eqn:Hpw;
      cbn [bind] in Hinit; [|discriminate].
    apply construct_depthwise_inv in Hdw as [? _].
    by apply construct_conv2d_inv in Hpw as [? _]. }
  rewrite SeparableConvBlock_init_ok in Hinit by done.
  by injection Hinit as <-.
Qed.

Lemma ConvBlock_init_ok (n k s d : Z) :
  0 < n -> conv_args_ok k s d ->
  ConvBlock_init n k s d = Ok (conv_block n k s d).
Proof.
  intros Hn Hok. unfold ConvBlock_init, conv_block, padding_layers, pad_type_of.
  pose proof Hok as (Hk & Hs & Hd & _).
  rewrite construct_custom_pad_ok, construct_conv2d_ok by done.
  by destruct (1 <? s).
Qed.

Lemma ConvBlock_init_inv (n k s d : Z) (blk : ConvBlock) :
  ConvBlock_init n k s d = Ok blk ->
  0 < n /\ conv_args_ok k s d /\ blk = conv_block n k s d.
Proof.
  intros Hinit.
  assert (0 < n /\ conv_args_ok k s d) as [Hn Hok].
  { unfold ConvBlock_init in Hinit.
    destruct (if 1 <? s then _ else _) as [blocks|]; cbn [bind] in Hinit;
      [|discriminate].
    destruct (construct (Conv2D _ _ _ _ _ _)) as [c|] eqn:Hc;
      cbn [bind] in Hinit; [|discriminate].
    by apply construct_conv2d_inv in Hc as (? & ? & _). }
  rewrite ConvBlock_init_ok in Hinit by done.
  by injection Hinit as <-.
Qed.

Lemma XceptionBlock_init_fields (n_filters : list Z) (st : option string)
    (stride d : Z) (activation tap : bool) (blk : XceptionBlock) :
  XceptionBlock_init n_filters st stride d activation tap = Ok blk ->
  skip_type blk = st /\ return_skip blk = tap /\ add blk = Add.
Proof.
  unfold XceptionBlock_init.
  destruct (comprehension _ _) as [bs|]; cbn [bind]; [|discriminate].
  case_bool_decide.
  - destruct (getitem_last n_filters); cbn [bind]; [|discriminate].
    destruct (ConvBlock_init _ _ _ _); cbn [bind]; [|discriminate].
    by intros [= <-].
  - by intros [= <-].
Qed.

(** The block built from a list of at least three filter counts. *)
Lemma XceptionBlock_init_cons3_ok (n0 n1 n2 : Z) (rest : list Z)
    (st : option string) (stride d : Z) (activation tap : bool) :
  0 < n0 -> 0 < n1 -> 0 < n2 -> conv_args_ok 3 stride d ->
  (st = Some "conv" -> 0 < default n2 (last rest)) ->
  XceptionBlock_init (n0 :: n1 :: n2 :: rest) st stride d activation tap =
    Ok (mkXceptionBlock
          [ separable_block n0 3 1 d activation;
            separable_block n1 3 1 d activation;
            separable_block n2 3 stride d activation ]
          st tap Add
          (if bool_decide (st = Some "conv")
           then Some (conv_block (default n2 (last rest)) 1 stride 1)
           else None)
          (if bool_decide (st = Some "conv")
           then Some BatchNormalization else None)).
Proof.
  intros H0 H1 H2 Hok Hlast. pose proof Hok as (_ & Hs & Hd & _).
  unfold XceptionBlock_init.
  cbn [comprehension seq getitem lookup list_lookup bind].
  rewrite (bool_decide_eq_false_2 (0%nat = 2%nat)) by lia.
  rewrite (bool_decide_eq_false_2 (1%nat = 2%nat)) by lia.
  rewrite (bool_decide_eq_true_2 (2%nat = 2%nat)) by lia.
  rewrite !SeparableConvBlock_init_ok by (done || (unfold conv_args_ok; lia)).
  cbn [bind].
  case_bool_decide; [|reflexivity].
  unfold getitem_last.
  assert (last (n0 :: n1 :: n2 :: rest) = Some (default n2 (last rest))) as ->.
  { destruct rest as [|r rest]; [reflexivity|].
    change (last (n0 :: n1 :: n2 :: r :: rest)) with (last (r :: rest)).
    destruct (last (r :: rest)) eqn:E; [reflexivity|]. by apply last_None in E. }
  cbn [bind].
  rewrite ConvBlock_init_ok by (auto; unfold conv_args_ok; lia).
  reflexivity.
Qed.

Lemma XceptionBlock_init_cons3_inv (n0 n1 n2 : Z) (rest : list Z)
    (st : option string) (stride d : Z) (activation tap : bool)
    (blk : XceptionBlock) :
  XceptionBlock_init (n0 :: n1 :: n2 :: rest) st stride d activation tap
    = Ok blk ->
  0 < n0 /\ 0 < n1 /\ 0 < n2 /\ conv_args_ok 3 stride d /\
  (st = Some "conv" -> 0 < default n2 (last rest)).
Proof.
  unfold XceptionBlock_init.
  cbn [comprehension seq getitem lookup list_lookup bind].
  rewrite (bool_decide_eq_false_2 (0%nat = 2%nat)) by lia.
  rewrite (bool_decide_eq_false_2 (1%nat = 2%nat)) by lia.
  rewrite (bool_decide_eq_true_2 (2%nat = 2%nat)) by lia.
  destruct (SeparableConvBlock_init n0 _ _ _ _) as [s1|] eqn:E1; cbn [bind];
    [|discriminate].
  destruct (SeparableConvBlock_init n1 _ _ _ _) as [s2|] eqn:E2; cbn [bind];
    [|discriminate].
  destruct (SeparableConvBlock_init n2 _ _ _ _) as [s3|] eqn:E3; cbn [bind];
    [|discriminate].
  apply SeparableConvBlock_init_inv in E1 as (H0 & _ & _).
  apply SeparableConvBlock_init_inv in E2 as (H1 & _ & _).
  apply SeparableConvBlock_init_inv in E3 as (H2 & Hok & _).
  case_bool_decide.
  - 
    unfold getitem_last.
    assert (last (n0 :: n1 :: n2 :: rest) = Some (default n2 (last rest))) as ->.
    { destruct rest as [|r rest]; [reflexivity|].
      change (last (n0 :: n1 :: n2 :: r :: rest)) with (last (r :: rest)).
      destruct (last (r :: rest)) eqn:E; [reflexivity|]. by apply last_None in E. }
    cbn [bind].
    destruct (ConvBlock_init _ _ _ _) as [cb|] eqn:Ec; cbn [bind];
      [|discriminate].
    apply ConvBlock_init_inv in Ec as (Hl & _ & _). done.
  - intros _. do 4 (split; [done|]). done.
Qed.

Lemma XceptionBlock_init_three (n0 n1 n2 : Z) (kind : SkipKind)
    (stride d : Z) (activation tap : bool) :
  0 < n0 -> 0 < n1 -> 0 < n2 -> conv_args_ok 3 stride d ->
  XceptionBlock_init [n0; n1; n2] (skip_name kind) stride d activation tap
    = Ok (xception_block n0 n1 n2 kind stride d activation tap).
Proof.
  intros. rewrite XceptionBlock_init_cons3_ok by done.
  by destruct kind.
Qed.

Lemma XceptionBlock_init_three_inv (n0 n1 n2 : Z) (kind : SkipKind)
    (stride d : Z) (activation tap : bool) (blk : XceptionBlock) :
  XceptionBlock_init [n0; n1; n2] (skip_name kind) stride d activation tap
    = Ok blk ->
  0 < n0 /\ 0 < n1 /\ 0 < n2 /\ conv_args_ok 3 stride d /\
  blk = xception_block n0 n1 n2 kind stride d activation tap.
Proof.
  intros Hinit.
  pose proof (XceptionBlock_init_cons3_inv _ _ _ _ _ _ _ _ _ _ Hinit)
    as (H0 & H1 & H2 & Hok & _).
  rewrite XceptionBlock_init_three in Hinit by done.
  by injection Hinit as <-.
Qed.

(** *** SeparableConvBlock *)

Lemma sequential_optional (blocks : list (option Layer)) (x : Tensor) :
  sequential call_optional blocks x = sequential call1 (omap id blocks) x.
Proof.
  revert x. induction blocks as [|[l|] blocks IH]; intros x; cbn.
  - reflexivity.
  - destruct (call1 l x) as [y|e]; cbn; [apply IH | reflexivity].
  - apply IH.
Qed.

Lemma SeparableConvBlock_call_active (b : SeparableConvBlock) (x : Tensor) :
  SeparableConvBlock_call b x = sequential call1 (active_layers b) x.
Proof. apply sequential_optional. Qed.

Lemma active_layers_pre (n k s d : Z) :
  active_layers (separable_block n k s d false) =
    padding_layers k s d ++
    [ ReLU; DepthwiseConv2D k s (pad_type_of s) false d; BatchNormalization;
      Conv2D n 1 1 same false 1; BatchNormalization ].
Proof.
  unfold active_layers, separable_block, padding_layers, pad_type_of.
  cbn. by destruct (1 <? s).
Qed.

Lemma active_layers_post (n k s d : Z) :
  active_layers (separable_block n k s d true) =
    padding_layers k s d ++
    [ DepthwiseConv2D k s (pad_type_of s) false d; BatchNormalization; ReLU;
      Conv2D n 1 1 same false 1; BatchNormalization; ReLU ].
Proof.
  unfold active_layers, separable_block, padding_layers, pad_type_of.
  cbn. by destruct (1 <? s).
Qed.

(** The expression a chain of layer calls returns. *)
Lemma call1_value (l : Layer) (x y : Tensor) :
  call1 l x = Ok y -> value y = ECall l [value x].
Proof.
  unfold call1, call_layer. cbn [map].
  destruct (layer_shape l [shape x]); cbn [bind]; [|discriminate].
  by intros [= <-].
Qed.

Lemma sequential_value (ls : list Layer) (x y : Tensor) :
  sequential call1 ls x = Ok y -> value y = apply_layers ls (value x).
Proof.
  revert x. induction ls as [|l ls IH]; intros x; cbn [sequential apply_layers].
  - by intros [= <-].
  - destruct (call1 l x) as [x'|] eqn:Hl; cbn [bind]; [|discriminate].
    intros Hy. rewrite (IH _ Hy). by rewrite (call1_value _ _ _ Hl).
Qed.

(** *** Construction and [output_stride] *)

Lemma XceptionBackbone_init_8 : is_ok (XceptionBackbone_init 8) = true.
Proof. by vm_compute. Qed.

Lemma XceptionBackbone_init_not_8 (output_stride : Z) :
  output_stride <> 8 ->
  XceptionBackbone_init output_stride = XceptionBackbone_init 16.
Proof.
  intros Hne. unfold XceptionBackbone_init, d_rates_backbone.
  apply Z.eqb_neq in Hne. rewrite Hne. reflexivity.
Qed.

Lemma ASPP_init_not_8 (output_stride : Z) :
  output_stride <> 8 -> ASPP_init output_stride = ASPP_init 16.
Proof.
  intros Hne. unfold ASPP_init, d_rates_aspp.
  apply Z.eqb_neq in Hne. rewrite Hne. reflexivity.
Qed.

(** C3, refuted as stated: 7 is outside {8, 16}, yet the backbone and
    the ASPP are constructed, and they are the objects that 16 gives. *)
Lemma C3_counterexample :
  7 <> 8 /\ 7 <> 16 /\
  ~ raises (XceptionBackbone_init 7) /\
  XceptionBackbone_init 7 = XceptionBackbone_init 16 /\
  ASPP_init 7 = ASPP_init 16 /\
  ~ raises (ASPP_init 7).
Proof.
  split; [lia|]. split; [lia|]. split; [|split; [reflexivity|split; [reflexivity|]]].
  - intros [e He]. vm_compute in He. discriminate He.
  - intros [e He]. vm_compute in He. discriminate He.
Qed.

(** C3, amended.  No value of [output_stride] makes the construction of
    the backbone or of the ASPP fail: every value other than 8 is
    accepted and builds exactly what 16 builds. *)
Theorem C3_any_stride_but_8_builds_as_16 (output_stride : Z) :
  output_stride <> 8 ->
  XceptionBackbone_init output_stride = XceptionBackbone_init 16 /\
  is_ok (XceptionBackbone_init output_stride) = true /\
  ASPP_init output_stride = ASPP_init 16 /\
  is_ok (ASPP_init output_stride) = true.
Proof.
  intros Hne. split; [by apply XceptionBackbone_init_not_8|].
  split; [|split].
  - rewrite XceptionBackbone_init_not_8 by done. by vm_compute.
  - by apply ASPP_init_not_8.
  - rewrite ASPP_init_not_8 by done. by vm_compute.
Qed.

Lemma C3_any_stride_but_8_builds_as_16_witness :
  XceptionBackbone_init 7 = XceptionBackbone_init 16 /\
  is_ok (XceptionBackbone_init 7) = true /\
  ASPP_init 7 = ASPP_init 16 /\
  is_ok (ASPP_init 7) = true.
Proof. apply (C3_any_stride_but_8_builds_as_16 7). lia. Defined.

Ltac block_is :=
  unfold xception_block_is;
  repeat match goal with
         | |- _ /\ _ => split
         | |- exists _, _ => eexists
         | |- Forall _ _ => repeat constructor
         | |- _ = _ => reflexivity
         end.

(** C6.  The topology of the backbone, for each of the two output
    strides: the stride of the fifth entry stage, the dilation triple,
    sixteen identical additive middle blocks at the first rate, and the
    two exit blocks at the second and third rates, the last one
    post-activated, without residual and without side tap. *)
Theorem C6_backbone_topology :
  backbone_topology 8 1 2 2 4 /\ backbone_topology 16 2 1 1 2.
Proof.
  split; unfold backbone_topology; eexists _, _, _, _, _;
    (split; [by vm_compute|]);
    do 3 (split; [reflexivity|]);
    (split; [block_is|]);
    (split; [reflexivity|]);
    (split; [block_is|]);
    (split; [reflexivity|]);
    split; block_is.
Qed.

(** *** XceptionBlock *)

Lemma xception_block_call (n0 n1 n2 : Z) (kind : SkipKind)
    (stride d : Z) (activation tap : bool) (x : Tensor) :
  XceptionBlock_call (xception_block n0 n1 n2 kind stride d activation tap) x
    = spec_XceptionBlock
        (separable_block n0 3 1 d activation)
        (separable_block n1 3 1 d activation)
        (separable_block n2 3 stride d activation)
        kind (conv_block n2 1 stride 1) tap x.
Proof.
  destruct kind;
    unfold XceptionBlock_call, spec_XceptionBlock, xception_block;
    cbn [sepconv_blocks skip_type return_skip add skipconv skipbn sepconv_loop
         bool_decide decide_rel fst snd];
    (destruct (SeparableConvBlock_call _ x) as [r1|]; [|reflexivity]);
    cbn [bind];
    (destruct (SeparableConvBlock_call _ r1) as [r2|]; [|reflexivity]);
    cbn [bind];
    (destruct (SeparableConvBlock_call _ r2) as [r3|]; [|reflexivity]);
    cbn [bind fst snd].
  all: cbn [skip_name];
    repeat (case_bool_decide; try discriminate; try lia; try congruence).
  all: cbn [attribute bind].
  - destruct (ConvBlock_call _ x) as [p|]; [|reflexivity]. cbn [bind].
    destruct (call1 BatchNormalization p) as [q|]; [|reflexivity]. cbn [bind].
    destruct (call_layer Add [r3; q]) as [o|]; [|reflexivity].
    by destruct tap.
  - destruct (call_layer Add [r3; x]) as [o|]; [|reflexivity].
    by destruct tap.
  - by destruct tap.
Qed.

(** C5.  Every Xception block that [XceptionBlock_init] constructs from
    three filter counts and one of the three skip types holds three
    separable blocks built with strides 1, 1 and the block's stride and
    the block's dilation rate, and on every input computes what the
    specification describes: the three in sequence, the tap after the
    second, the shortcut by skip type (for the projected one a 1x1
    [ConvBlock] of the block's stride on the original input, then a
    normalisation, added to the third output), and the pair exactly
    when the tap flag is set. *)
Theorem C5_xception_block_structure (n0 n1 n2 : Z) (kind : SkipKind)
    (stride d : Z) (activation tap : bool) (blk : XceptionBlock) :
  XceptionBlock_init [n0; n1; n2] (skip_name kind) stride d activation tap
    = Ok blk ->
  exists s1 s2 s3 shortcut,
    SeparableConvBlock_init n0 3 1 d activation = Ok s1 /\
    SeparableConvBlock_init n1 3 1 d activation = Ok s2 /\
    SeparableConvBlock_init n2 3 stride d activation = Ok s3 /\
    sepconv_blocks blk = [s1; s2; s3] /\
    (kind = projected ->
     ConvBlock_init n2 1 stride 1 = Ok shortcut /\
     skipconv blk = Some shortcut /\ skipbn blk = Some BatchNormalization) /\
    forall x,
      XceptionBlock_call blk x = spec_XceptionBlock s1 s2 s3 kind shortcut tap x.
Proof.
  intros Hinit.
  apply XceptionBlock_init_three_inv in Hinit as (H0 & H1 & H2 & Hok & ->).
  pose proof Hok as (_ & Hs & Hd & _).
  exists (separable_block n0 3 1 d activation),
         (separable_block n1 3 1 d activation),
         (separable_block n2 3 stride d activation),
         (conv_block n2 1 stride 1).
  rewrite !SeparableConvBlock_init_ok by (done || (unfold conv_args_ok; lia)).
  do 4 (split; [reflexivity|]). split.
  - intros ->. rewrite ConvBlock_init_ok by (done || (unfold conv_args_ok; lia)).
    done.
  - intros x. apply xception_block_call.
Qed.

Lemma C5_xception_block_structure_witness :
  exists s1 s2 s3 shortcut,
    SeparableConvBlock_init 256 3 1 1 false = Ok s1 /\
    SeparableConvBlock_init 256 3 1 1 false = Ok s2 /\
    SeparableConvBlock_init 256 3 2 1 false = Ok s3 /\
    sepconv_blocks (xception_block 256 256 256 projected 2 1 false true)
      = [s1; s2; s3] /\
    (projected = projected ->
     ConvBlock_init 256 1 2 1 = Ok shortcut /\
     skipconv (xception_block 256 256 256 projected 2 1 false true)
       = Some shortcut /\
     skipbn (xception_block 256 256 256 projected 2 1 false true)
       = Some BatchNormalization) /\
    forall x,
      XceptionBlock_call (xception_block 256 256 256 projected 2 1 false true) x
        = spec_XceptionBlock s1 s2 s3 projected shortcut true x.
Proof.
  apply (C5_xception_block_structure 256 256 256 projected 2 1 false true).
  reflexivity.
Defined.

(** *** The additive shortcut and [Add] *)

Lemma elemwise_dims_error (layer : string) (s1 s2 : list Z) (e : PyError) :
  elemwise_dims layer s1 s2 = Raise e -> e = ValueError layer.
Proof.
  revert s2. induction s1 as [|i r1 IH]; intros [|j r2]; cbn; try discriminate.
  destruct (elemwise_dims layer r1 r2) as [rest|e'] eqn:Hrest; cbn.
  - repeat case_match; congruence.
  - intros [= <-]. by eapply IH.
Qed.

Lemma elemwise_dims_incompatible (layer : string) (s1 s2 : list Z)
    (n : nat) (i j : Z) :
  s1 !! n = Some i -> s2 !! n = Some j -> incompatible i j ->
  elemwise_dims layer s1 s2 = Raise (ValueError layer).
Proof.
  revert s2 n. induction s1 as [|a r1 IH]; intros [|b r2] [|n]; cbn;
    try discriminate.
  - intros [= ->] [= ->] (Hij & Hi & Hj).
    destruct (elemwise_dims layer r1 r2) as [rest|e] eqn:Hrest; cbn.
    + apply Z.eqb_neq in Hij, Hi, Hj. by rewrite Hi, Hj, Hij.
    + by rewrite (elemwise_dims_error _ _ _ _ Hrest).
  - intros H1 H2 Hinc. by rewrite (IH _ _ H1 H2 Hinc).
Qed.

Lemma add_incompatible (b b' h h' w w' c c' : Z) :
  incompatible h' h \/ incompatible w' w \/ incompatible c' c ->
  add_shape [[b'; h'; w'; c']; [b; h; w; c]] = Raise (ValueError "Add").
Proof.
  intros Hinc. unfold add_shape, merge_shapes.
  destruct (b' =? b); [|reflexivity].
  unfold compute_elemwise_op_output_shape.
  cbn [length Nat.ltb Nat.leb Nat.sub drop take app].
  destruct Hinc as [H|[H|H]].
  - by rewrite (elemwise_dims_incompatible "Add" [h'; w'; c'] [h; w; c] 0 _ _ eq_refl eq_refl H).
  - by rewrite (elemwise_dims_incompatible "Add" [h'; w'; c'] [h; w; c] 1 _ _ eq_refl eq_refl H).
  - by rewrite (elemwise_dims_incompatible "Add" [h'; w'; c'] [h; w; c] 2 _ _ eq_refl eq_refl H).
Qed.


(** A failure inside the main path is the result of the call as well. *)
Lemma main_path_raises (blk : XceptionBlock) (x : Tensor) (e : PyError) :
  main_path blk x = Raise e -> XceptionBlock_call blk x = Raise e.
Proof.
  unfold main_path, XceptionBlock_call.
  destruct (sepconv_loop 0 (sepconv_blocks blk) x None); cbn [bind];
    [discriminate | by intros [= ->]].
Qed.



(** *** Shapes through the network *)

Lemma ceil_div_pos (n s : Z) : 0 < n -> 0 < s -> 0 < ceil_div n s.
Proof.
  intros Hn Hs. unfold ceil_div.
  apply Z.div_str_pos. lia.
Qed.

Lemma ceil_div_1 (n : Z) : ceil_div n 1 = n.
Proof. unfold ceil_div. rewrite Z.div_1_r. lia. Qed.

Lemma ceil_div_2_2 (n : Z) : n mod 4 = 0 -> ceil_div (ceil_div n 2) 2 = n / 4.
Proof. unfold ceil_div. intros H. Z.div_mod_to_equations. lia. Qed.

Lemma conv_same (n k s d : Z) : conv_output_length n k same s d = ceil_div n s.
Proof. reflexivity. Qed.

Lemma conv_valid_padded (n s d : Z) :
  conv_output_length (n + d + d) 3 valid s d = ceil_div n s.
Proof. unfold conv_output_length, ceil_div. f_equal. lia. Qed.

Lemma conv_valid_1x1 (n s d : Z) :
  conv_output_length (n + 0 + 0) 1 valid s d = ceil_div n s.
Proof. unfold conv_output_length, ceil_div. f_equal. lia. Qed.

Lemma custom_pad_kernel1 (d : Z) : custom_pad 1 d = ZeroPadding2D (0, 0).
Proof.
  unfold custom_pad. replace (1 + (1 - 1) * (d - 1) - 1) with 0 by lia.
  reflexivity.
Qed.

(** Stepping through a chain of calls. *)

Lemma yields_bind (r : result Tensor) (k : Tensor -> result Tensor)
    (s s' : list Z) :
  yields r s -> (forall y, shape y = s -> yields (k y) s') ->
  yields (bind r k) s'.
Proof. intros (y & -> & Hy) Hk. cbn. by apply Hk. Qed.

Lemma yields_Ok (x : Tensor) (s : list Z) : shape x = s -> yields (Ok x) s.
Proof. intros. by exists x. Qed.

(** The layers that need a tensor of rank 4. *)
Section Rank4.
Context (x : Tensor) (b h w c : Z).
Hypothesis Hx : shape x = [b; h; w; c].

Lemma yields_conv2d_nn (f k s : Z) (p : Padding) (u : bool) (d : Z) :
  0 <= conv_output_length h k p s d -> 0 <= conv_output_length w k p s d ->
  0 <= f ->
  yields (call1 (Conv2D f k s p u d) x)
    [b; conv_output_length h k p s d; conv_output_length w k p s d; f].
Proof.
  intros Hh Hw Hf. unfold call1, call_layer. cbn [map layer_shape].
  rewrite Hx. unfold checked, all_non_negative. cbn [forallb].
  apply Z.leb_le in Hh, Hw, Hf. rewrite Hh, Hw, Hf. cbn. by eexists.
Qed.

Lemma yields_conv2d (f k s : Z) (p : Padding) (u : bool) (d : Z) :
  0 < conv_output_length h k p s d -> 0 < conv_output_length w k p s d ->
  0 < f ->
  yields (call1 (Conv2D f k s p u d) x)
    [b; conv_output_length h k p s d; conv_output_length w k p s d; f].
Proof. intros. apply yields_conv2d_nn; lia. Qed.

Lemma yields_depthwise_nn (k s : Z) (p : Padding) (u : bool) (d : Z) :
  0 <= conv_output_length h k p s d -> 0 <= conv_output_length w k p s d ->
  0 <= c ->
  yields (call1 (DepthwiseConv2D k s p u d) x)
    [b; conv_output_length h k p s d; conv_output_length w k p s d; c].
Proof.
  intros Hh Hw Hc. unfold call1, call_layer. cbn [map layer_shape].
  rewrite Hx. unfold checked, all_non_negative. cbn [forallb].
  apply Z.leb_le in Hh, Hw, Hc. rewrite Hh, Hw, Hc. cbn. by eexists.
Qed.

Lemma yields_depthwise (k s : Z) (p : Padding) (u : bool) (d : Z) :
  0 < conv_output_length h k p s d -> 0 < conv_output_length w k p s d ->
  0 < c ->
  yields (call1 (DepthwiseConv2D k s p u d) x)
    [b; conv_output_length h k p s d; conv_output_length w k p s d; c].
Proof. intros. apply yields_depthwise_nn; lia. Qed.

Lemma yields_pad (p0 p1 : Z) :
  yields (call1 (ZeroPadding2D (p0, p1)) x)
    [b; h + p0 + p0; w + p1 + p1; c].
Proof.
  unfold call1, call_layer. cbn [map layer_shape]. rewrite Hx.
  cbn. by eexists.
Qed.

Lemma yields_pooling : yields (call1 GlobalAveragePooling2D x) [b; c].
Proof.
  unfold call1, call_layer. cbn [map layer_shape]. rewrite Hx.
  cbn. by eexists.
Qed.

Lemma resize_rank4 (nh nw : Z) (method : string) :
  0 < h -> 0 < w -> 0 < nh -> 0 < nw ->
  tf_image_resize x [nh; nw] method
    = Ok (mkTensor [b; nh; nw; c] (EResize (value x) [nh; nw] method)).
Proof.
  intros Hh Hw Hnh Hnw. unfold tf_image_resize, resize_shape. rewrite Hx.
  apply Z.ltb_lt in Hh, Hw, Hnh, Hnw. by rewrite Hh, Hw, Hnh, Hnw.
Qed.
End Rank4.

Lemma yields_bn (x : Tensor) (s : list Z) :
  shape x = s -> yields (call1 BatchNormalization x) s.
Proof. intros <-. by eexists. Qed.

Lemma yields_relu (x : Tensor) (s : list Z) :
  shape x = s -> yields (call1 ReLU x) s.
Proof. intros <-. by eexists. Qed.

Lemma yields_activation (name : string) (x : Tensor) (s : list Z) :
  shape x = s -> yields (call1 (Activation name) x) s.
Proof. intros <-. by eexists. Qed.

Lemma elemwise_dims_same (layer : string) (s : list Z) :
  elemwise_dims layer s s = Ok s.
Proof.
  induction s as [|i r IH]; cbn; [done|]. rewrite IH. cbn.
  destruct (i =? 1); [done|]. by rewrite Z.eqb_refl.
Qed.

Lemma yields_add_same (x y : Tensor) (b : Z) (s : list Z) :
  shape x = b :: s -> shape y = b :: s ->
  yields (call_layer Add [x; y]) (b :: s).
Proof.
  intros Hx Hy. unfold call_layer. cbn [map layer_shape]. rewrite Hx, Hy.
  unfold add_shape, merge_shapes. rewrite Z.eqb_refl.
  unfold compute_elemwise_op_output_shape. rewrite Nat.ltb_irrefl.
  destruct s as [|i r]; [cbn; by eexists|].
  rewrite Nat.sub_diag. cbn [drop take app]. rewrite elemwise_dims_same.
  cbn. by eexists.
Qed.

Ltac step lem :=
  eapply yields_bind; [eapply lem; try eassumption; try lia | intros ? ?].

(** The blocks. *)

Lemma BasicBlock_shape (n k s d : Z) (x : Tensor) (b h w c : Z) :
  shape x = [b; h; w; c] -> 0 < h -> 0 < w -> 0 < n -> 0 < s ->
  yields (BasicBlock_call (basic_block n k s) x)
    [b; ceil_div h s; ceil_div w s; n].
Proof.
  intros Hx Hh Hw Hn Hs. unfold BasicBlock_call, BasicBlock_init.
  cbn [basic_blocks sequential].
  pose proof (ceil_div_pos h s Hh Hs). pose proof (ceil_div_pos w s Hw Hs).
  step yields_conv2d. rewrite !conv_same in *.
  step yields_bn. step yields_relu. by apply yields_Ok.
Qed.

Lemma SeparableConvBlock_shape (n s d : Z) (activation : bool)
    (x : Tensor) (b h w c : Z) :
  shape x = [b; h; w; c] -> 0 < h -> 0 < w -> 0 < c -> 0 < n -> 0 < s ->
  yields (SeparableConvBlock_call (separable_block n 3 s d activation) x)
    [b; ceil_div h s; ceil_div w s; n].
Proof.
  intros Hx Hh Hw Hc Hn Hs.
  pose proof (ceil_div_pos h s Hh Hs). pose proof (ceil_div_pos w s Hw Hs).
  rewrite SeparableConvBlock_call_active.
  destruct activation;
    [rewrite active_layers_post | rewrite active_layers_pre];
    unfold padding_layers, pad_type_of; rewrite custom_pad_kernel3;
    destruct (Z.ltb_spec 1 s); destruct (Z.eqb_spec s 1); try lia;
    cbn [app sequential].
  - step yields_pad. step yields_depthwise; rewrite ?conv_valid_padded in *; try lia.
    step yields_bn. step yields_relu.
    step yields_conv2d; rewrite ?conv_same, ?ceil_div_1 in *; try lia.
    step yields_bn. step yields_relu. by apply yields_Ok.
  - subst s. step yields_depthwise; rewrite ?conv_same in *; try lia.
    step yields_bn. step yields_relu.
    step yields_conv2d; rewrite ?conv_same, ?ceil_div_1 in *; try lia.
    step yields_bn. step yields_relu. by apply yields_Ok.
  - step yields_pad. step yields_relu.
    step yields_depthwise; rewrite ?conv_valid_padded in *; try lia.
    step yields_bn.
    step yields_conv2d; rewrite ?conv_same, ?ceil_div_1 in *; try lia.
    step yields_bn. by apply yields_Ok.
  - subst s. step yields_relu. step yields_depthwise; rewrite ?conv_same in *; try lia.
    step yields_bn.
    step yields_conv2d; rewrite ?conv_same, ?ceil_div_1 in *; try lia.
    step yields_bn. by apply yields_Ok.
Qed.

Lemma ConvBlock_1x1_shape (n s : Z) (x : Tensor) (b h w c : Z) :
  shape x = [b; h; w; c] -> 0 < h -> 0 < w -> 0 < n -> 0 < s ->
  yields (ConvBlock_call (conv_block n 1 s 1) x)
    [b; ceil_div h s; ceil_div w s; n].
Proof.
  intros Hx Hh Hw Hn Hs.
  pose proof (ceil_div_pos h s Hh Hs). pose proof (ceil_div_pos w s Hw Hs).
  unfold ConvBlock_call, conv_block, padding_layers, pad_type_of.
  rewrite custom_pad_kernel1.
  destruct (Z.ltb_spec 1 s); destruct (Z.eqb_spec s 1); try lia;
    cbn [app conv_blocks sequential].
  - step yields_pad.
    step yields_conv2d; rewrite ?conv_valid_1x1 in *; try lia.
    by apply yields_Ok.
  - subst s. step yields_conv2d; rewrite ?conv_same, ?ceil_div_1 in *; try lia.
    rewrite ?ceil_div_1. by apply yields_Ok.
Qed.

(** The shapes an Xception block returns: the fused output at the
    block's stride with the last filter count, the tap at the input's
    resolution with the second filter count. *)
Lemma xception_block_shape (n0 n1 n2 : Z) (kind : SkipKind)
    (stride d : Z) (activation tap : bool) (x : Tensor) (b h w c : Z) :
  shape x = [b; h; w; c] -> 0 < h -> 0 < w -> 0 < c ->
  0 < n0 -> 0 < n1 -> 0 < n2 -> 0 < stride ->
  (kind = additive -> stride = 1 /\ c = n2) ->
  exists out skip,
    XceptionBlock_call (xception_block n0 n1 n2 kind stride d activation tap) x
      = Ok (if tap then VTuple out skip else VTensor out) /\
    shape out = [b; ceil_div h stride; ceil_div w stride; n2] /\
    shape skip = [b; h; w; n1].
Proof.
  intros Hx Hh Hw Hc H0 H1 H2 Hs Hadd.
  rewrite xception_block_call. unfold spec_XceptionBlock.
  destruct (SeparableConvBlock_shape n0 1 d activation x b h w c)
    as (r1 & -> & Hr1); try done.
  rewrite !ceil_div_1 in Hr1. cbn [bind].
  destruct (SeparableConvBlock_shape n1 1 d activation r1 b h w n0)
    as (r2 & -> & Hr2); try done.
  rewrite !ceil_div_1 in Hr2. cbn [bind].
  destruct (SeparableConvBlock_shape n2 stride d activation r2 b h w n1)
    as (r3 & -> & Hr3); try done.
  cbn [bind].
  destruct kind.
  - destruct (ConvBlock_1x1_shape n2 stride x b h w c) as (p & -> & Hp);
      try done.
    cbn [bind].
    destruct (yields_bn p _ Hp) as (q & -> & Hq). cbn [bind].
    destruct (yields_add_same r3 q _ _ Hr3 Hq) as (o & -> & Ho). cbn [bind].
    by exists o, r2.
  - destruct Hadd as [-> ->]; [done|]. rewrite !ceil_div_1 in *.
    destruct (yields_add_same r3 x _ _ Hr3 Hx) as (o & -> & Ho). cbn [bind].
    by exists o, r2.
  - by exists r3, r2.
Qed.

Lemma XceptionBackbone_init_eq (output_stride : Z) :
  XceptionBackbone_init output_stride =
    Ok (if output_stride =? 8 then backbone_of 1 2 2 4
        else backbone_of 2 1 1 2).
Proof.
  unfold XceptionBackbone_init, d_rates_backbone.
  destruct (output_stride =? 8); reflexivity.
Qed.

Lemma call_basic (n k s d : Z) (x : Tensor) (b h w c : Z) :
  shape x = [b; h; w; c] -> 0 < h -> 0 < w -> 0 < n -> 0 < s ->
  exists y,
    FlowBlock_call (FBasic (basic_block n k s)) (VTensor x)
      = Ok (VTensor y) /\
    shape y = [b; ceil_div h s; ceil_div w s; n].
Proof.
  intros. cbn [FlowBlock_call].
  destruct (BasicBlock_shape n k s d x b h w c) as (y & -> & Hy); try done.
  by exists y.
Qed.

Lemma call_xception (n0 n1 n2 : Z) (kind : SkipKind) (stride d : Z)
    (activation : bool) (x : Tensor) (b h w c : Z) :
  shape x = [b; h; w; c] -> 0 < h -> 0 < w -> 0 < c ->
  0 < n0 -> 0 < n1 -> 0 < n2 -> 0 < stride ->
  (kind = additive -> stride = 1 /\ c = n2) ->
  exists y,
    FlowBlock_call
      (FXception (xception_block n0 n1 n2 kind stride d activation false))
      (VTensor x) = Ok (VTensor y) /\
    shape y = [b; ceil_div h stride; ceil_div w stride; n2].
Proof.
  intros. cbn [FlowBlock_call].
  destruct (xception_block_shape n0 n1 n2 kind stride d activation false
              x b h w c) as (out & skip & -> & Hout & _); try done.
  by exists out.
Qed.

Lemma flow_loop_preserving (blk : FlowBlock) (s : list Z) (n : nat) (x : Tensor) :
  (forall x, shape x = s ->
     exists y, FlowBlock_call blk (VTensor x) = Ok (VTensor y) /\ shape y = s) ->
  shape x = s ->
  exists y, flow_loop (replicate n blk) (VTensor x) = Ok (VTensor y) /\ shape y = s.
Proof.
  intros Hblk. revert x. induction n as [|n IH]; intros x Hx;
    cbn [replicate flow_loop].
  - by exists x.
  - destruct (Hblk x Hx) as (y & -> & Hy). cbn [bind]. by apply IH.
Qed.

(** The backbone on an image of positive size: the tap is taken after
    two halvings, the deep map after three or four. *)
Lemma backbone_of_shape (x_stride d0 d1 d2 : Z) (x : Tensor) (b h w c : Z) :
  shape x = [b; h; w; c] -> 0 < h -> 0 < w -> 0 < x_stride ->
  exists y skip,
    XceptionBackbone_call (backbone_of x_stride d0 d1 d2) x
      = Ok (VTensor y, skip) /\
    shape skip = [b; ceil_div (ceil_div h 2) 2; ceil_div (ceil_div w 2) 2; 256] /\
    shape y =
      [b; ceil_div (ceil_div (ceil_div (ceil_div h 2) 2) 2) x_stride;
          ceil_div (ceil_div (ceil_div (ceil_div w 2) 2) 2) x_stride; 2048].
Proof.
  intros Hx Hh Hw Hs.
  unfold XceptionBackbone_call, backbone_of.
  cbn [entry_flow middle_flow exit_flow entry_loop].
  repeat (case_bool_decide; try lia).
  set (h1 := ceil_div h 2). set (w1 := ceil_div w 2).
  assert (0 < h1) by (apply ceil_div_pos; lia).
  assert (0 < w1) by (apply ceil_div_pos; lia).
  set (h2 := ceil_div h1 2). set (w2 := ceil_div w1 2).
  assert (0 < h2) by (apply ceil_div_pos; lia).
  assert (0 < w2) by (apply ceil_div_pos; lia).
  set (h3 := ceil_div h2 2). set (w3 := ceil_div w2 2).
  assert (0 < h3) by (apply ceil_div_pos; lia).
  assert (0 < w3) by (apply ceil_div_pos; lia).
  set (h4 := ceil_div h3 x_stride). set (w4 := ceil_div w3 x_stride).
  assert (0 < h4) by (apply ceil_div_pos; lia).
  assert (0 < w4) by (apply ceil_div_pos; lia).
  destruct (call_basic 32 3 2 1 x b h w c) as (y1 & -> & Hy1); try done.
  cbn [bind].
  destruct (call_basic 64 3 1 1 y1 b h1 w1 32) as (y2 & -> & Hy2); try done.
  rewrite !ceil_div_1 in Hy2. cbn [bind].
  destruct (call_xception 128 128 128 projected 2 1 false y2 b h1 w1 64)
    as (y3 & -> & Hy3); try done.
  cbn [bind FlowBlock_call].
  destruct (xception_block_shape 256 256 256 projected 2 1 false true
              y3 b h2 w2 128) as (y4 & skip & -> & Hy4 & Hskip); try done.
  cbn [bind].
  destruct (xception_block_shape 728 728 728 projected x_stride 1 false false
              y4 b h3 w3 256) as (y5 & _ & -> & Hy5 & _); try done.
  cbn [bind fst snd].
  destruct (flow_loop_preserving
              (FXception (xception_block 728 728 728 additive 1 d0 false false))
              [b; h4; w4; 728] 16 y5) as (y6 & -> & Hy6); try done.
  { intros z Hz.
    destruct (call_xception 728 728 728 additive 1 d0 false z b h4 w4 728)
      as (z' & -> & Hz'); try done.
    rewrite !ceil_div_1 in Hz'. by exists z'. }
  cbn [bind flow_loop].
  destruct (call_xception 728 1024 1024 projected 1 d1 false y6 b h4 w4 728)
    as (y7 & -> & Hy7); try done.
  rewrite !ceil_div_1 in Hy7. cbn [bind].
  destruct (call_xception 1536 1536 2048 no_residual 1 d2 true y7 b h4 w4 1024)
    as (y8 & -> & Hy8); try done.
  rewrite !ceil_div_1 in Hy8. cbn [bind local].
  by exists y8, skip.
Qed.

Lemma yields_newaxis (x : Tensor) (b c : Z) :
  shape x = [b; c] -> yields (call1 Lambda_newaxis x) [b; 1; 1; c].
Proof.
  intros Hx. unfold call1, call_layer. cbn [map layer_shape]. rewrite Hx.
  cbn. by eexists.
Qed.

Lemma concat_shapes_rank4 (b h w c : Z) (cs : list Z) :
  concat_shapes [b; h; w] c (map (fun c' => [b; h; w; c']) cs)
    = Ok [b; h; w; foldl Z.add c cs].
Proof.
  revert c. induction cs as [|c' cs IH]; intros c; cbn; [done|].
  rewrite bool_decide_eq_true_2 by done. apply IH.
Qed.

Lemma yields_concat (xs : list Tensor) (b h w c : Z) (cs : list Z) :
  map shape xs = map (fun c' => [b; h; w; c']) (c :: cs) ->
  yields (call_layer Concatenate xs) [b; h; w; foldl Z.add c cs].
Proof.
  intros Hxs. unfold call_layer. cbn [layer_shape]. rewrite Hxs.
  cbn [map concatenate_shape]. change (split_last [b; h; w; c]) with (Some ([b; h; w], c)).
  cbn iota. rewrite concat_shapes_rank4. cbn. by eexists.
Qed.

Lemma ASPP_init_eq (output_stride : Z) :
  ASPP_init output_stride = Ok (aspp_of output_stride).
Proof.
  unfold ASPP_init, aspp_of, d_rates_aspp.
  destruct (output_stride =? 8); reflexivity.
Qed.

Lemma DeepLabV3Decoder_init_ok (n_classes : Z) :
  0 < n_classes -> DeepLabV3Decoder_init n_classes = Ok (decoder_of n_classes).
Proof.
  intros Hn. unfold DeepLabV3Decoder_init, decoder_of.
  rewrite BasicBlock_init_ok, !SeparableConvBlock_init_ok
    by (try lia; unfold conv_args_ok; lia).
  cbn [bind]. rewrite construct_conv2d_ok by (try lia; unfold conv_args_ok; lia).
  reflexivity.
Qed.

Lemma DeepLabV3Decoder_init_inv (n_classes : Z) (dec : DeepLabV3Decoder) :
  DeepLabV3Decoder_init n_classes = Ok dec ->
  0 < n_classes /\ dec = decoder_of n_classes.
Proof.
  intros Hinit. assert (0 < n_classes) as Hn.
  { unfold DeepLabV3Decoder_init in Hinit.
    rewrite BasicBlock_init_ok, !SeparableConvBlock_init_ok in Hinit
      by (try lia; unfold conv_args_ok; lia).
    cbn [bind] in Hinit.
    destruct (construct (Conv2D n_classes _ _ _ _ _)) as [l|] eqn:Hc;
      cbn [bind] in Hinit; [|discriminate].
    by apply construct_conv2d_inv in Hc as (? & _). }
  rewrite DeepLabV3Decoder_init_ok in Hinit by done.
  by injection Hinit as <-.
Qed.

(** The ASPP on a feature map of positive size. *)
Lemma ASPP_shapes (output_stride : Z) (x : Tensor) (b h w c : Z) :
  shape x = [b; h; w; c] -> 0 < h -> 0 < w -> 0 < c ->
  exists x1 x2 x3 x4 x5 pooled xc y,
    ASPP_branches (aspp_of output_stride) x = Ok [x1; x2; x3; x4; x5] /\
    Forall (fun t => shape t = [b; h; w; 256]) [x1; x2; x3; x4; x5] /\
    value x5 = EResize pooled [h; w] "bilinear" /\
    call_layer Concatenate [x1; x2; x3; x4; x5] = Ok xc /\
    shape xc = [b; h; w; 1280] /\
    ASPP_call (aspp_of output_stride) x = Ok y /\
    shape y = [b; h; w; 256].
Proof.
  intros Hx Hh Hw Hc.
  unfold ASPP_call, ASPP_branches, aspp_of.
  cbn [block_1x1 block_3x3_rate_S block_3x3_rate_M block_3x3_rate_L
       blocks_pooling aspp_concat concat_1x1].
  destruct (BasicBlock_shape 256 1 1 1 x b h w c) as (x1 & -> & H1); try done.
  destruct (SeparableConvBlock_shape 256 1 (d_rates_aspp output_stride).1.1
              true x b h w c) as (x2 & -> & H2); try done.
  destruct (SeparableConvBlock_shape 256 1 (d_rates_aspp output_stride).1.2
              true x b h w c) as (x3 & -> & H3); try done.
  destruct (SeparableConvBlock_shape 256 1 (d_rates_aspp output_stride).2
              true x b h w c) as (x4 & -> & H4); try done.
  rewrite !ceil_div_1 in *. cbn [bind sequential PoolingBlock_call].
  destruct (yields_pooling x b h w c Hx) as (p1 & -> & Hp1). cbn [bind].
  destruct (yields_newaxis p1 b c Hp1) as (p2 & -> & Hp2). cbn [bind].
  destruct (BasicBlock_shape 256 1 1 1 p2 b 1 1 c) as (p3 & -> & Hp3); try done.
  rewrite !ceil_div_1 in *. cbn [bind].
  unfold shape_tuple_1_3, slice_1_3. rewrite Hx. cbn [drop take].
  rewrite (resize_rank4 p3 b 1 1 256 Hp3 h w "bilinear") by done. cbn [bind].
  set (x5 := mkTensor [b; h; w; 256] (EResize (value p3) [h; w] "bilinear")).
  destruct (yields_concat [x1; x2; x3; x4; x5] b h w 256 [256; 256; 256; 256])
    as (xc & Hxc & Hsc).
  { cbn [map]. by rewrite H1, H2, H3, H4. }
  cbn in Hsc. rewrite Hxc. cbn [bind].
  destruct (BasicBlock_shape 256 1 1 1 xc b h w 1280) as (y & Hy & Hsy);
    try done.
  rewrite !ceil_div_1 in *.
  exists x1, x2, x3, x4, x5, (value p3), xc, y.
  repeat split; try done. by repeat constructor.
Qed.

(** The decoder: the last two steps are the resize to [input_shape] and
    the sigmoid. *)
Lemma Decoder_shape (n_classes : Z) (x skip : Tensor)
    (b hx wx cx hs ws cs ih iw : Z) :
  shape x = [b; hx; wx; cx] -> shape skip = [b; hs; ws; cs] ->
  0 < hx -> 0 < wx -> 0 < hs -> 0 < ws -> 0 < ih -> 0 < iw ->
  0 < cx -> 0 < n_classes ->
  exists y scores,
    DeepLabV3Decoder_call (decoder_of n_classes) x skip [ih; iw]
      = Ok y /\
    shape y = [b; ih; iw; n_classes] /\
    value y = ECall (Activation "sigmoid") [EResize scores [ih; iw] "bilinear"].
Proof.
  intros Hx Hskip Hhx Hwx Hhs Hws Hih Hiw Hcx Hn.
  unfold DeepLabV3Decoder_call, decoder_of.
  cbn [skip_block dec_concat sepconv1 sepconv2 conv sigmoid].
  unfold shape_tuple_1_3, slice_1_3. rewrite Hskip. cbn [drop take].
  rewrite (resize_rank4 x b hx wx cx Hx hs ws "bilinear") by done. cbn [bind].
  set (x1 := mkTensor [b; hs; ws; cx] _).
  destruct (BasicBlock_shape 48 1 1 1 skip b hs ws cs) as (s1 & -> & Hs1);
    try done.
  rewrite !ceil_div_1 in *. cbn [bind].
  destruct (yields_concat [x1; s1] b hs ws cx [48]) as (xc & -> & Hxc).
  { cbn [map]. by rewrite Hs1. }
  cbn in Hxc. cbn [bind].
  destruct (SeparableConvBlock_shape 256 1 1 true xc b hs ws (cx + 48))
    as (r1 & -> & Hr1); try done; try lia.
  rewrite !ceil_div_1 in *. cbn [bind].
  destruct (SeparableConvBlock_shape 256 1 1 true r1 b hs ws 256)
    as (r2 & -> & Hr2); try done.
  rewrite !ceil_div_1 in *. cbn [bind].
  destruct (yields_conv2d r2 b hs ws 256 Hr2 n_classes 1 1 same true 1)
    as (r3 & -> & Hr3); rewrite ?conv_same, ?ceil_div_1 in *; try done.
  cbn [bind].
  rewrite (resize_rank4 r3 b hs ws n_classes Hr3 ih iw "bilinear") by done.
  cbn [bind]. eexists _, _. split; [reflexivity|]. by split.
Qed.

(** The body of [DeepLabV3pXc], had the class statement succeeded: on an
    image of positive size the output has the input's height and width
    and [n_classes] channels, and is the sigmoid of a bilinear resize to
    that height and width. *)
Lemma DeepLabV3pXc_call_shape (output_stride n_classes : Z)
    (x : Tensor) (b h w c : Z) :
  shape x = [b; h; w; c] -> 0 < h -> 0 < w -> 0 < n_classes ->
  exists model y scores,
    DeepLabV3pXc_init output_stride n_classes = Ok model /\
    DeepLabV3pXc_call model x = Ok y /\
    shape y = [b; h; w; n_classes] /\
    value y = ECall (Activation "sigmoid") [EResize scores [h; w] "bilinear"].
Proof.
  intros Hx Hh Hw Hn.
  unfold DeepLabV3pXc_init.
  rewrite XceptionBackbone_init_eq, ASPP_init_eq, DeepLabV3Decoder_init_ok by done.
  cbn [bind].
  assert (exists xs d0 d1 d2, 0 < xs /\
            (if output_stride =? 8 then backbone_of 1 2 2 4
             else backbone_of 2 1 1 2) = backbone_of xs d0 d1 d2)
    as (xs & d0 & d1 & d2 & Hxs & ->).
  { destruct (output_stride =? 8); eexists _, _, _, _; split;
      try reflexivity; lia. }
  eexists. cut (exists y scores,
    DeepLabV3pXc_call
      (mkDeepLabV3pXc (backbone_of xs d0 d1 d2) (aspp_of output_stride)
         (decoder_of n_classes)) x = Ok y /\
    shape y = [b; h; w; n_classes] /\
    value y = ECall (Activation "sigmoid") [EResize scores [h; w] "bilinear"]).
  { intros (y & scores & Hcall). exists y, scores. split; [reflexivity|done]. }
  unfold DeepLabV3pXc_call. cbn [backbone aspp decoder].
  destruct (backbone_of_shape xs d0 d1 d2 x b h w c)
    as (f & skip & -> & Hskip & Hf); try done.
  cbn [bind fst snd as_tensor].
  set (h2 := ceil_div (ceil_div h 2) 2) in *.
  set (w2 := ceil_div (ceil_div w 2) 2) in *.
  assert (0 < h2) by (repeat apply ceil_div_pos; lia).
  assert (0 < w2) by (repeat apply ceil_div_pos; lia).
  set (h4 := ceil_div (ceil_div h2 2) xs) in *.
  set (w4 := ceil_div (ceil_div w2 2) xs) in *.
  assert (0 < h4) by (repeat apply ceil_div_pos; lia).
  assert (0 < w4) by (repeat apply ceil_div_pos; lia).
  destruct (ASPP_shapes output_stride f b h4 w4 2048)
    as (_ & _ & _ & _ & _ & _ & _ & a & _ & _ & _ & _ & _ & -> & Ha); try done.
  cbn [bind]. unfold shape_tuple_1_3, slice_1_3. rewrite Hx. cbn [drop take].
  destruct (Decoder_shape n_classes a skip b h4 w4 256 h2 w2 256 h w)
    as (y & scores & -> & Hy & Hv); try done.
  cbn [bind]. by exists y, scores.
Qed.

(** C7.  For every output stride and every image whose height and width
    are positive multiples of 4, the backbone returns a skip feature map
    of exactly a quarter of the height and of the width, with 256
    channels. *)
Theorem C7_skip_feature_map_quarter (output_stride : Z)
    (x : Tensor) (b h w c : Z) :
  shape x = [b; h; w; c] -> 0 < h -> 0 < w -> h mod 4 = 0 -> w mod 4 = 0 ->
  exists bb y skip,
    XceptionBackbone_init output_stride = Ok bb /\
    XceptionBackbone_call bb x = Ok (VTensor y, skip) /\
    shape skip = [b; h / 4; w / 4; 256].
Proof.
  intros Hx Hh Hw Hh4 Hw4. rewrite XceptionBackbone_init_eq.
  assert (exists xs d0 d1 d2, 0 < xs /\
            (if output_stride =? 8 then backbone_of 1 2 2 4
             else backbone_of 2 1 1 2) = backbone_of xs d0 d1 d2)
    as (xs & d0 & d1 & d2 & Hxs & ->).
  { destruct (output_stride =? 8); eexists _, _, _, _; split;
      try reflexivity; lia. }
  destruct (backbone_of_shape xs d0 d1 d2 x b h w c)
    as (y & skip & Hcall & Hskip & _); try done.
  exists (backbone_of xs d0 d1 d2), y, skip.
  split; [reflexivity|]. split; [done|].
  by rewrite Hskip, !ceil_div_2_2.
Qed.

Lemma C7_skip_feature_map_quarter_witness :
  exists bb y skip,
    XceptionBackbone_init 8 = Ok bb /\
    XceptionBackbone_call bb (input_tensor [1; 256; 256; 3])
      = Ok (VTensor y, skip) /\
    shape skip = [1; 64; 64; 256].
Proof.
  apply (C7_skip_feature_map_quarter 8 (input_tensor [1; 256; 256; 3])
           1 256 256 3); [reflexivity | lia | lia | reflexivity | reflexivity].
Defined.



(** *** The segmentation model *)

(** The class body on the end-to-end scenario of the specification. *)
Lemma DeepLabV3pXc_call_256 :
  exists model y,
    DeepLabV3pXc_init 8 1 = Ok model /\
    DeepLabV3pXc_call model (input_tensor [1; 256; 256; 3]) = Ok y /\
    shape y = [1; 256; 256; 1].
Proof.
  destruct (DeepLabV3pXc_call_shape 8 1 (input_tensor [1; 256; 256; 3])
              1 256 256 3) as (model & y & _ & Hinit & Hcall & Hy & _);
    [reflexivity | lia | lia | lia |].
  by exists model, y.
Qed.

(** C1, at an input where code and claim part.  The claim promises a
    tensor of shape (1, 256, 256, 1) for output stride 8, one class and
    an image of shape (1, 256, 256, 3); obtaining the model raises
    [NameError: Model], so the forward pass returns nothing. *)
Theorem C1_forward_pass_raises_NameError :
  forward_pass 8 1 (input_tensor [1; 256; 256; 3]) = Raise (NameError "Model").
Proof. unfold forward_pass, new_DeepLabV3pXc. by rewrite import_raises. Qed.

(** *** Padding and alignment, for every kernel size *)

Lemma custom_pad_even (k d : Z) :
  ((k - 1) * d) mod 2 = 0 ->
  custom_pad k d = ZeroPadding2D ((k - 1) * d / 2, (k - 1) * d / 2).
Proof.
  intros Heven. unfold custom_pad.
  replace (k + (k - 1) * (d - 1) - 1) with ((k - 1) * d) by lia.
  set (t := (k - 1) * d) in *.
  assert (t - t / 2 = t / 2) as -> by (Z.div_mod_to_equations; lia).
  reflexivity.
Qed.

Lemma custom_pad_odd (k d : Z) :
  ((k - 1) * d) mod 2 = 1 ->
  custom_pad k d
    = ZeroPadding2D (((k - 1) * d - 1) / 2, ((k - 1) * d - 1) / 2 + 1).
Proof.
  intros Hodd. unfold custom_pad.
  replace (k + (k - 1) * (d - 1) - 1) with ((k - 1) * d) by lia.
  set (t := (k - 1) * d) in *.
  assert (t / 2 = (t - 1) / 2) as -> by (Z.div_mod_to_equations; lia).
  assert (t - (t - 1) / 2 = (t - 1) / 2 + 1) as ->
    by (Z.div_mod_to_equations; lia).
  reflexivity.
Qed.

Lemma conv_valid_padded_even (n k s d : Z) :
  ((k - 1) * d) mod 2 = 0 ->
  conv_output_length (n + (k - 1) * d / 2 + (k - 1) * d / 2) k valid s d
    = ceil_div n s.
Proof.
  intros Heven. unfold conv_output_length, ceil_div. f_equal.
  Z.div_mod_to_equations. lia.
Qed.

Lemma conv_valid_padded_odd_height (n k s d : Z) :
  ((k - 1) * d) mod 2 = 1 ->
  conv_output_length (n + ((k - 1) * d - 1) / 2 + ((k - 1) * d - 1) / 2)
    k valid s d = ceil_div (n - 1) s.
Proof.
  intros Hodd. unfold conv_output_length, ceil_div. f_equal.
  Z.div_mod_to_equations. lia.
Qed.

Lemma conv_valid_padded_odd_width (n k s d : Z) :
  ((k - 1) * d) mod 2 = 1 ->
  conv_output_length
    (n + (((k - 1) * d - 1) / 2 + 1) + (((k - 1) * d - 1) / 2 + 1))
    k valid s d = ceil_div (n + 1) s.
Proof.
  intros Hodd. unfold conv_output_length, ceil_div. f_equal.
  Z.div_mod_to_equations. lia.
Qed.

Lemma ConvBlock_aligned_shape (n k s d : Z) (x : Tensor) (b h w c : Z) :
  shape x = [b; h; w; c] -> 0 < h -> 0 < w -> 0 < n -> 0 < s ->
  s = 1 \/ ((k - 1) * d) mod 2 = 0 ->
  yields (ConvBlock_call (conv_block n k s d) x)
    [b; ceil_div h s; ceil_div w s; n].
Proof.
  intros Hx Hh Hw Hn Hs Hal.
  pose proof (ceil_div_pos h s Hh Hs). pose proof (ceil_div_pos w s Hw Hs).
  unfold ConvBlock_call, conv_block, padding_layers, pad_type_of.
  destruct (Z.ltb_spec 1 s); destruct (Z.eqb_spec s 1); try lia;
    cbn [app conv_blocks sequential].
  - destruct Hal as [?|Heven]; [lia|]. rewrite (custom_pad_even k d Heven).
    step yields_pad.
    step yields_conv2d; rewrite ?conv_valid_padded_even in * by done; try lia.
    by apply yields_Ok.
  - subst s. step yields_conv2d; rewrite ?conv_same in *; try lia.
    by apply yields_Ok.
Qed.

Lemma SeparableConvBlock_aligned_shape (n k s d : Z) (activation : bool)
    (x : Tensor) (b h w c : Z) :
  shape x = [b; h; w; c] -> 0 < h -> 0 < w -> 0 < c -> 0 < n -> 0 < s ->
  s = 1 \/ ((k - 1) * d) mod 2 = 0 ->
  yields (SeparableConvBlock_call (separable_block n k s d activation) x)
    [b; ceil_div h s; ceil_div w s; n].
Proof.
  intros Hx Hh Hw Hc Hn Hs Hal.
  pose proof (ceil_div_pos h s Hh Hs). pose proof (ceil_div_pos w s Hw Hs).
  rewrite SeparableConvBlock_call_active.
  destruct activation;
    [rewrite active_layers_post | rewrite active_layers_pre];
    unfold padding_layers, pad_type_of;
    destruct (Z.ltb_spec 1 s); destruct (Z.eqb_spec s 1); try lia;
    try (destruct Hal as [?|Heven]; [lia|]; rewrite (custom_pad_even k d Heven));
    cbn [app sequential].
  - step yields_pad.
    step yields_depthwise; rewrite ?conv_valid_padded_even in * by done; try lia.
    step yields_bn. step yields_relu.
    step yields_conv2d; rewrite ?conv_same, ?ceil_div_1 in *; try lia.
    step yields_bn. step yields_relu. by apply yields_Ok.
  - subst s. step yields_depthwise; rewrite ?conv_same in *; try lia.
    step yields_bn. step yields_relu.
    step yields_conv2d; rewrite ?conv_same, ?ceil_div_1 in *; try lia.
    step yields_bn. step yields_relu. by apply yields_Ok.
  - step yields_pad. step yields_relu.
    step yields_depthwise; rewrite ?conv_valid_padded_even in * by done; try lia.
    step yields_bn.
    step yields_conv2d; rewrite ?conv_same, ?ceil_div_1 in *; try lia.
    step yields_bn. by apply yields_Ok.
  - subst s. step yields_relu.
    step yields_depthwise; rewrite ?conv_same in *; try lia.
    step yields_bn.
    step yields_conv2d; rewrite ?conv_same, ?ceil_div_1 in *; try lia.
    step yields_bn. by apply yields_Ok.
Qed.

Lemma ConvBlock_skewed_shape (n k s d : Z) (x : Tensor) (b h w c : Z) :
  shape x = [b; h; w; c] -> 1 < h -> 0 < w -> 0 < n -> 1 < s ->
  ((k - 1) * d) mod 2 = 1 ->
  yields (ConvBlock_call (conv_block n k s d) x)
    [b; ceil_div (h - 1) s; ceil_div (w + 1) s; n].
Proof.
  intros Hx Hh Hw Hn Hs Hodd.
  assert (0 < ceil_div (h - 1) s) by (apply ceil_div_pos; lia).
  assert (0 < ceil_div (w + 1) s) by (apply ceil_div_pos; lia).
  unfold ConvBlock_call, conv_block, padding_layers, pad_type_of.
  destruct (Z.ltb_spec 1 s); destruct (Z.eqb_spec s 1); try lia;
    cbn [app conv_blocks sequential].
  rewrite (custom_pad_odd k d Hodd).
  step yields_pad.
  step yields_conv2d;
    rewrite ?conv_valid_padded_odd_height, ?conv_valid_padded_odd_width in *
      by done; try lia.
  by apply yields_Ok.
Qed.

Lemma SeparableConvBlock_skewed_shape (n k s d : Z) (activation : bool)
    (x : Tensor) (b h w c : Z) :
  shape x = [b; h; w; c] -> 1 < h -> 0 < w -> 0 < c -> 0 < n -> 1 < s ->
  ((k - 1) * d) mod 2 = 1 ->
  yields (SeparableConvBlock_call (separable_block n k s d activation) x)
    [b; ceil_div (h - 1) s; ceil_div (w + 1) s; n].
Proof.
  intros Hx Hh Hw Hc Hn Hs Hodd.
  assert (0 < ceil_div (h - 1) s) by (apply ceil_div_pos; lia).
  assert (0 < ceil_div (w + 1) s) by (apply ceil_div_pos; lia).
  rewrite SeparableConvBlock_call_active.
  destruct activation;
    [rewrite active_layers_post | rewrite active_layers_pre];
    unfold padding_layers, pad_type_of;
    destruct (Z.ltb_spec 1 s); destruct (Z.eqb_spec s 1); try lia;
    rewrite (custom_pad_odd k d Hodd); cbn [app sequential].
  - step yields_pad.
    step yields_depthwise;
      rewrite ?conv_valid_padded_odd_height, ?conv_valid_padded_odd_width in *
        by done; try lia.
    step yields_bn. step yields_relu.
    step yields_conv2d; rewrite ?conv_same, ?ceil_div_1 in *; try lia.
    step yields_bn. step yields_relu. by apply yields_Ok.
  - step yields_pad. step yields_relu.
    step yields_depthwise;
      rewrite ?conv_valid_padded_odd_height, ?conv_valid_padded_odd_width in *
        by done; try lia.
    step yields_bn.
    step yields_conv2d; rewrite ?conv_same, ?ceil_div_1 in *; try lia.
    step yields_bn. by apply yields_Ok.
Qed.

(** A separable block that could be constructed returns on every input
    with at least two rows and one column. *)
Lemma separable_block_returns (n k s d : Z) (activation : bool)
    (x : Tensor) (b h w c : Z) :
  0 < n -> conv_args_ok k s d ->
  shape x = [b; h; w; c] -> 1 < h -> 0 < w -> 0 < c ->
  is_ok (SeparableConvBlock_call (separable_block n k s d activation) x) = true.
Proof.
  intros Hn (Hk & Hs & Hd & Hsd) Hx Hh Hw Hc.
  destruct (Z.eq_dec s 1) as [->|Hs1].
  - destruct (SeparableConvBlock_aligned_shape n k 1 d activation x b h w c)
      as (y & -> & _); auto with lia.
  - destruct (Z.eq_dec (((k - 1) * d) mod 2) 0) as [Heven|Hodd].
    + destruct (SeparableConvBlock_aligned_shape n k s d activation x b h w c)
        as (y & -> & _); auto with lia.
    + destruct (SeparableConvBlock_skewed_shape n k s d activation x b h w c)
        as (y & -> & _); auto with lia.
      pose proof (Z.mod_pos_bound ((k - 1) * d) 2). lia.
Qed.

(** *** Activation placement *)

Lemma apply_layers_app (ls1 ls2 : list Layer) (e : Expr) :
  apply_layers (ls1 ++ ls2) e = apply_layers ls2 (apply_layers ls1 e).
Proof.
  revert e. induction ls1 as [|l ls1 IH]; intros e; cbn [app apply_layers].
  - reflexivity.
  - apply IH.
Qed.

(** C9.  A separable block has exactly one activation placement.  With
    the flag false its layers are (padding,) ReLU, depthwise, BN,
    pointwise, BN: one rectifier, before the depthwise convolution, none
    after; whatever the call returns is the second normalisation of the
    pointwise convolution of the first normalisation of the depthwise
    convolution of the rectified (padded) input.  With the flag true they
    are (padding,) depthwise, BN, ReLU, pointwise, BN, ReLU: none before
    the depthwise convolution, one after each normalisation; whatever the
    call returns is the rectified normalised pointwise convolution of the
    rectified normalised depthwise convolution of the (padded) input.
    Both calls return on every input with at least two rows, one column
    and one channel. *)
Theorem C9_one_activation_placement (n k s d : Z)
    (pre post : SeparableConvBlock) :
  SeparableConvBlock_init n k s d false = Ok pre ->
  SeparableConvBlock_init n k s d true = Ok post ->
  active_layers pre =
    padding_layers k s d ++
    [ ReLU; DepthwiseConv2D k s (pad_type_of s) false d; BatchNormalization;
      Conv2D n 1 1 same false 1; BatchNormalization ] /\
  count_relu (before_depthwise (active_layers pre)) = 1%nat /\
  count_relu (after_depthwise (active_layers pre)) = 0%nat /\
  active_layers post =
    padding_layers k s d ++
    [ DepthwiseConv2D k s (pad_type_of s) false d; BatchNormalization; ReLU;
      Conv2D n 1 1 same false 1; BatchNormalization; ReLU ] /\
  count_relu (before_depthwise (active_layers post)) = 0%nat /\
  count_relu (after_depthwise (active_layers post)) = 2%nat /\
  (forall x y : Tensor,
     SeparableConvBlock_call pre x = Ok y ->
     value y =
       ECall BatchNormalization
         [ECall (Conv2D n 1 1 same false 1)
            [ECall BatchNormalization
               [ECall (DepthwiseConv2D k s (pad_type_of s) false d)
                  [ECall ReLU
                     [apply_layers (padding_layers k s d) (value x)]]]]]) /\
  (forall x y : Tensor,
     SeparableConvBlock_call post x = Ok y ->
     value y =
       ECall ReLU
         [ECall BatchNormalization
            [ECall (Conv2D n 1 1 same false 1)
               [ECall ReLU
                  [ECall BatchNormalization
                     [ECall (DepthwiseConv2D k s (pad_type_of s) false d)
                        [apply_layers (padding_layers k s d) (value x)]]]]]]) /\
  (forall (x : Tensor) (b h w c : Z),
     shape x = [b; h; w; c] -> 1 < h -> 0 < w -> 0 < c ->
     is_ok (SeparableConvBlock_call pre x) = true /\
     is_ok (SeparableConvBlock_call post x) = true).
Proof.
  intros Hpre Hpost.
  apply SeparableConvBlock_init_inv in Hpre as (Hn & Hok & ->).
  apply SeparableConvBlock_init_inv in Hpost as (_ & _ & ->).
  rewrite active_layers_pre, active_layers_post.
  split; [reflexivity|].
  split; [unfold padding_layers; by destruct (1 <? s)|].
  split; [unfold padding_layers; by destruct (1 <? s)|].
  split; [reflexivity|].
  split; [unfold padding_layers; by destruct (1 <? s)|].
  split; [unfold padding_layers; by destruct (1 <? s)|].
  split; [|split].
  - intros x y Hy. rewrite SeparableConvBlock_call_active in Hy.
    apply sequential_value in Hy.
    by rewrite Hy, active_layers_pre, apply_layers_app.
  - intros x y Hy. rewrite SeparableConvBlock_call_active in Hy.
    apply sequential_value in Hy.
    by rewrite Hy, active_layers_post, apply_layers_app.
  - intros x b h w c Hx Hh Hw Hc.
    split; by apply (separable_block_returns n k s d _ x b h w c).
Qed.

Lemma C9_one_activation_placement_witness :
  SeparableConvBlock_init 256 3 1 12 false
    = Ok (separable_block 256 3 1 12 false) /\
  SeparableConvBlock_init 256 3 1 12 true
    = Ok (separable_block 256 3 1 12 true) /\
  count_relu (before_depthwise (active_layers (separable_block 256 3 1 12 false)))
    = 1%nat /\
  count_relu (after_depthwise (active_layers (separable_block 256 3 1 12 true)))
    = 2%nat /\
  is_ok (SeparableConvBlock_call (separable_block 256 3 1 12 false)
           (input_tensor [1; 16; 16; 2048])) = true.
Proof.
  destruct (C9_one_activation_placement 256 3 1 12
              (separable_block 256 3 1 12 false)
              (separable_block 256 3 1 12 true))
    as (_ & Hb & _ & _ & _ & Ha & _ & _ & Hr); [reflexivity | reflexivity |].
  split; [reflexivity|]. split; [reflexivity|].
  split; [exact Hb|]. split; [exact Ha|].
  apply (Hr (input_tensor [1; 16; 16; 2048]) 1 16 16 2048); [reflexivity | lia | lia | lia].
Defined.

(** ** Further properties *)

(** *** [custom_pad] and the strided blocks *)

(** X1.  For every kernel size and dilation rate from 1 up, the two
    numbers [custom_pad] computes add up to the span minus one,
    [(k - 1) * d], the first is the smaller and they differ by at most
    one; the layer pads the height with the first on both sides and the
    width with the second on both sides. *)
Theorem X1_custom_pad_splits_span (k d : Z) :
  1 <= k -> 1 <= d ->
  exists ps pe,
    custom_pad k d = ZeroPadding2D (ps, pe) /\
    ps + pe = (k - 1) * d /\ 0 <= ps /\ ps <= pe /\ pe <= ps + 1 /\
    applied_padding (custom_pad k d) = Some ((ps, ps), (pe, pe)).
Proof.
  intros Hk Hd. eexists _, _. split; [reflexivity|].
  replace (k + (k - 1) * (d - 1) - 1) with ((k - 1) * d) by lia.
  assert (0 <= (k - 1) * d) by nia.
  set (t := (k - 1) * d) in *.
  repeat split; try (Z.div_mod_to_equations; lia).
  unfold custom_pad, applied_padding, normalized_padding. cbn [fst snd].
  replace (k + (k - 1) * (d - 1) - 1) with t by (unfold t; lia).
  reflexivity.
Qed.

Lemma X1_custom_pad_splits_span_witness :
  exists ps pe,
    custom_pad 4 3 = ZeroPadding2D (ps, pe) /\
    ps + pe = (4 - 1) * 3 /\ 0 <= ps /\ ps <= pe /\ pe <= ps + 1 /\
    applied_padding (custom_pad 4 3) = Some ((ps, ps), (pe, pe)).
Proof. apply (X1_custom_pad_splits_span 4 3); lia. Defined.

(** X2.  A [ConvBlock] or [SeparableConvBlock] that could be constructed,
    of any kernel size, whose stride is 1 or whose [(k - 1) * d] is even,
    returns on every input of positive size the height and width divided
    by the stride, rounded up: the explicit padding in front of the
    strided valid convolution gives the alignment of same-padding. *)
Theorem X2_explicit_padding_keeps_alignment (n k s d : Z) (activation : bool)
    (cb : ConvBlock) (sb : SeparableConvBlock) (x : Tensor) (b h w c : Z) :
  ConvBlock_init n k s d = Ok cb ->
  SeparableConvBlock_init n k s d activation = Ok sb ->
  shape x = [b; h; w; c] -> 0 < h -> 0 < w -> 0 < c ->
  s = 1 \/ ((k - 1) * d) mod 2 = 0 ->
  yields (ConvBlock_call cb x) [b; ceil_div h s; ceil_div w s; n] /\
  yields (SeparableConvBlock_call sb x) [b; ceil_div h s; ceil_div w s; n].
Proof.
  intros Hcb Hsb Hx Hh Hw Hc Hal.
  apply ConvBlock_init_inv in Hcb as (Hn & (Hk & Hs & Hd & Hsd) & ->).
  apply SeparableConvBlock_init_inv in Hsb as (_ & _ & ->).
  split.
  - by apply (ConvBlock_aligned_shape n k s d x b h w c).
  - by apply (SeparableConvBlock_aligned_shape n k s d activation x b h w c).
Qed.

Lemma X2_explicit_padding_keeps_alignment_witness :
  ConvBlock_init 64 5 2 1 = Ok (conv_block 64 5 2 1) /\
  SeparableConvBlock_init 64 5 2 1 true = Ok (separable_block 64 5 2 1 true) /\
  yields (ConvBlock_call (conv_block 64 5 2 1) (input_tensor [1; 9; 12; 3]))
    [1; 5; 6; 64] /\
  yields (SeparableConvBlock_call (separable_block 64 5 2 1 true)
            (input_tensor [1; 9; 12; 3]))
    [1; 5; 6; 64].
Proof.
  split; [reflexivity|]. split; [reflexivity|].
  apply (X2_explicit_padding_keeps_alignment 64 5 2 1 true
           (conv_block 64 5 2 1) (separable_block 64 5 2 1 true)
           (input_tensor [1; 9; 12; 3]) 1 9 12 3);
    [reflexivity | reflexivity | reflexivity | lia | lia | lia
    | right; reflexivity].
Defined.

(** X3.  A strided [ConvBlock] that could be constructed and whose
    [(k - 1) * d] is odd treats the two axes differently: the height
    comes out as that of an input one row shorter and the width as that
    of an input one column wider. *)
Theorem X3_odd_span_skews_strided_ConvBlock (n k s d : Z) (cb : ConvBlock)
    (x : Tensor) (b h w c : Z) :
  ConvBlock_init n k s d = Ok cb ->
  shape x = [b; h; w; c] -> 1 < h -> 0 < w -> 1 < s ->
  ((k - 1) * d) mod 2 = 1 ->
  d = 1 /\
  yields (ConvBlock_call cb x)
    [b; ceil_div (h - 1) s; ceil_div (w + 1) s; n].
Proof.
  intros Hcb Hx Hh Hw Hs Hodd.
  apply ConvBlock_init_inv in Hcb as (Hn & (Hk & _ & Hd & Hsd) & ->).
  split; [lia|]. by apply (ConvBlock_skewed_shape n k s d x b h w c).
Qed.

Lemma X3_odd_span_skews_strided_ConvBlock_witness :
  ConvBlock_init 8 2 2 1 = Ok (conv_block 8 2 2 1) /\
  yields (ConvBlock_call (conv_block 8 2 2 1) (input_tensor [1; 4; 4; 3]))
    [1; 2; 3; 8].
Proof.
  split; [reflexivity|].
  apply (X3_odd_span_skews_strided_ConvBlock 8 2 2 1 (conv_block 8 2 2 1)
           (input_tensor [1; 4; 4; 3]) 1 4 4 3);
    [reflexivity | reflexivity | lia | lia | lia | reflexivity].
Defined.

(** X4.  A [BasicBlock] is convolution, normalisation, rectifier; its
    convolution uses same-padding, no bias and dilation 1 whatever
    [d_rate] is passed: the block constructed with any [d_rate] is the one
    constructed with 1, its filter count, kernel size and stride are
    positive, and on every input of positive size the height and width
    are divided by the stride, rounded up, for every kernel size. *)
Theorem X4_BasicBlock_ignores_d_rate (n k s d : Z) (blk : BasicBlock)
    (x : Tensor) (b h w c : Z) :
  BasicBlock_init n k s d = Ok blk ->
  shape x = [b; h; w; c] -> 0 < h -> 0 < w ->
  0 < n /\ 0 < k /\ 0 < s /\
  BasicBlock_init n k s 1 = Ok blk /\
  BasicBlock_call blk x =
    Ok (mkTensor [b; ceil_div h s; ceil_div w s; n]
          (ECall ReLU
             [ECall BatchNormalization
                [ECall (Conv2D n k s same false 1) [value x]]])).
Proof.
  intros Hinit Hx Hh Hw.
  apply BasicBlock_init_inv in Hinit as (Hn & Hk & Hs & ->).
  do 3 (split; [done|]).
  split; [by apply BasicBlock_init_ok|].
  pose proof (ceil_div_pos h s Hh Hs) as Hh'.
  pose proof (ceil_div_pos w s Hw Hs) as Hw'.
  unfold BasicBlock_call, basic_block. cbn [basic_blocks sequential].
  unfold call1 at 1, call_layer. cbn [map layer_shape]. rewrite Hx.
  rewrite !conv_same. unfold checked, all_non_negative. cbn [forallb].
  assert ((0 <=? ceil_div h s) = true) as -> by (apply Z.leb_le; lia).
  assert ((0 <=? ceil_div w s) = true) as -> by (apply Z.leb_le; lia).
  assert ((0 <=? n) = true) as -> by (apply Z.leb_le; lia).
  reflexivity.
Qed.

Lemma X4_BasicBlock_ignores_d_rate_witness :
  BasicBlock_init 32 3 2 5 = Ok (basic_block 32 3 2) /\
  0 < 32 /\ 0 < 3 /\ 0 < 2 /\
  BasicBlock_init 32 3 2 1 = Ok (basic_block 32 3 2) /\
  BasicBlock_call (basic_block 32 3 2) (input_tensor [1; 256; 256; 3]) =
    Ok (mkTensor [1; 128; 128; 32]
          (ECall ReLU
             [ECall BatchNormalization
                [ECall (Conv2D 32 3 2 same false 1) [EInput]]])).
Proof.
  split; [reflexivity|].
  apply (X4_BasicBlock_ignores_d_rate 32 3 2 5 (basic_block 32 3 2)
           (input_tensor [1; 256; 256; 3]) 1 256 256 3);
    [reflexivity | reflexivity | lia | lia].
Defined.

(** *** XceptionBlock: construction and skip types *)

Lemma construct_error (l : Layer) (e : PyError) :
  construct l = Raise e -> exists tag, e = ValueError tag.
Proof.
  destruct l; cbn [construct]; repeat case_match; try discriminate;
    intros [= <-]; by eexists.
Qed.

Lemma SeparableConvBlock_init_error (n k s d : Z) (activation : bool)
    (e : PyError) :
  SeparableConvBlock_init n k s d activation = Raise e ->
  exists tag, e = ValueError tag.
Proof.
  unfold SeparableConvBlock_init.
  destruct (1 <? s).
  - destruct (construct (custom_pad k d)) eqn:E0; cbn [bind];
      [|intros [= <-]; by eapply construct_error].
    destruct (construct (DepthwiseConv2D _ _ _ _ _)) eqn:E1; cbn [bind];
      [|intros [= <-]; by eapply construct_error].
    destruct (construct (Conv2D _ _ _ _ _ _)) eqn:E2; cbn [bind];
      [discriminate|intros [= <-]; by eapply construct_error].
  - cbn [bind].
    destruct (construct (DepthwiseConv2D _ _ _ _ _)) eqn:E1; cbn [bind];
      [|intros [= <-]; by eapply construct_error].
    destruct (construct (Conv2D _ _ _ _ _ _)) eqn:E2; cbn [bind];
      [discriminate|intros [= <-]; by eapply construct_error].
Qed.

Lemma ConvBlock_init_error (n k s d : Z) (e : PyError) :
  ConvBlock_init n k s d = Raise e -> exists tag, e = ValueError tag.
Proof.
  unfold ConvBlock_init.
  destruct (1 <? s).
  - destruct (construct (custom_pad k d)) eqn:E0; cbn [bind];
      [|intros [= <-]; by eapply construct_error].
    destruct (construct (Conv2D _ _ _ _ _ _)) eqn:E2; cbn [bind];
      [discriminate|intros [= <-]; by eapply construct_error].
  - cbn [bind].
    destruct (construct (Conv2D _ _ _ _ _ _)) eqn:E2; cbn [bind];
      [discriminate|intros [= <-]; by eapply construct_error].
Qed.

(** With fewer than three filter counts the loop over [range(3)] ends in
    [IndexError], unless a separable block before the missing count
    already failed to construct. *)
Lemma XceptionBlock_init_short (n_filters : list Z) (st : option string)
    (stride d : Z) (activation tap : bool) :
  (length n_filters < 3)%nat ->
  is_ok (XceptionBlock_init n_filters st stride d activation tap) = false /\
  (XceptionBlock_init n_filters st stride d activation tap = Raise IndexError
   <-> Forall (Z.lt 0) n_filters /\ (n_filters = [] \/ 0 < d)).
Proof.
  intros Hlen. unfold XceptionBlock_init.
  destruct n_filters as [|n0 [|n1 [|n2 rest]]]; cbn [length] in Hlen; try lia;
    cbn [comprehension seq getitem lookup list_lookup bind].
  - split; [reflexivity|]. split; [intros _; split; [constructor|by left]|done].
  - rewrite (bool_decide_eq_false_2 (0%nat = 2%nat)) by lia.
    destruct (SeparableConvBlock_init n0 3 1 d activation) as [s0|e] eqn:E0;
      cbn [bind].
    + apply SeparableConvBlock_init_inv in E0 as (H0 & (_ & _ & Hd & _) & _).
      split; [reflexivity|]. split; [intros _|done].
      split; [by repeat constructor|by right].
    + split; [reflexivity|]. split.
      * intros [= ->]. by apply SeparableConvBlock_init_error in E0 as [? ?].
      * intros [Hall [?|Hd]]; [done|].
        apply Forall_cons in Hall as [H0 _].
        rewrite SeparableConvBlock_init_ok in E0
          by (done || (unfold conv_args_ok; lia)).
        discriminate.
  - rewrite (bool_decide_eq_false_2 (0%nat = 2%nat)) by lia.
    rewrite (bool_decide_eq_false_2 (1%nat = 2%nat)) by lia.
    destruct (SeparableConvBlock_init n0 3 1 d activation) as [s0|e] eqn:E0;
      cbn [bind].
    + destruct (SeparableConvBlock_init n1 3 1 d activation) as [s1|e] eqn:E1;
        cbn [bind].
      * apply SeparableConvBlock_init_inv in E0 as (H0 & (_ & _ & Hd & _) & _).
        apply SeparableConvBlock_init_inv in E1 as (H1 & _ & _).
        split; [reflexivity|]. split; [intros _|done].
        split; [by repeat constructor|by right].
      * split; [reflexivity|]. split.
        -- intros [= ->]. by apply SeparableConvBlock_init_error in E1 as [? ?].
        -- intros [Hall [?|Hd]]; [done|].
           apply Forall_cons in Hall as [_ [H1 _]%Forall_cons].
           rewrite SeparableConvBlock_init_ok in E1
             by (done || (unfold conv_args_ok; lia)).
           discriminate.
    + split; [reflexivity|]. split.
      * intros [= ->]. by apply SeparableConvBlock_init_error in E0 as [? ?].
      * intros [Hall [?|Hd]]; [done|].
        apply Forall_cons in Hall as [H0 _].
        rewrite SeparableConvBlock_init_ok in E0
          by (done || (unfold conv_args_ok; lia)).
        discriminate.
Qed.

Lemma XceptionBlock_init_cons3_error (n0 n1 n2 : Z) (rest : list Z)
    (st : option string) (stride d : Z) (activation tap : bool) (e : PyError) :
  XceptionBlock_init (n0 :: n1 :: n2 :: rest) st stride d activation tap
    = Raise e ->
  exists tag, e = ValueError tag.
Proof.
  unfold XceptionBlock_init.
  cbn [comprehension seq getitem lookup list_lookup bind].
  destruct (SeparableConvBlock_init n0 _ _ _ _) as [s1|] eqn:E1; cbn [bind];
    [|intros [= <-]; by eapply SeparableConvBlock_init_error].
  destruct (SeparableConvBlock_init n1 _ _ _ _) as [s2|] eqn:E2; cbn [bind];
    [|intros [= <-]; by eapply SeparableConvBlock_init_error].
  destruct (SeparableConvBlock_init n2 _ _ _ _) as [s3|] eqn:E3; cbn [bind];
    [|intros [= <-]; by eapply SeparableConvBlock_init_error].
  destruct (bool_decide (st = Some "conv")); [|intros [=]].
  unfold getitem_last.
  destruct (last (n0 :: n1 :: n2 :: rest)) eqn:El; cbn [bind];
    [|by apply last_None in El].
  destruct (ConvBlock_init _ _ _ _) eqn:Ec; cbn [bind];
    [discriminate|intros [= <-]; by eapply ConvBlock_init_error].
Qed.


(** X6.  A block constructed with a skip type other than ["conv"],
    ["sum"] or [None] runs its main path and then raises
    [UnboundLocalError] for [out]: no branch assigned it. *)
Theorem X6_unknown_skip_type_raises (n_filters : list Z) (st : string)
    (stride d : Z) (activation tap : bool) (blk : XceptionBlock) (x r : Tensor) :
  st <> "conv" -> st <> "sum" ->
  XceptionBlock_init n_filters (Some st) stride d activation tap = Ok blk ->
  main_path blk x = Ok r ->
  XceptionBlock_call blk x = Raise (UnboundLocalError "out").
Proof.
  intros Hconv Hsum Hinit Hmain.
  apply XceptionBlock_init_fields in Hinit as (Hst & _ & _).
  unfold main_path in Hmain. unfold XceptionBlock_call.
  destruct (sepconv_loop _ _ x None) as [[r' skip]|]; cbn [bind fst snd] in *;
    [|discriminate].
  rewrite Hst, !bool_decide_eq_false_2 by congruence.
  cbn [bind]. by destruct (return_skip blk).
Qed.

Lemma X6_unknown_skip_type_raises_witness :
  exists blk,
    XceptionBlock_init [728; 728; 728] (Some "add") 1 1 false false = Ok blk /\
    XceptionBlock_call blk (input_tensor [1; 8; 8; 728])
      = Raise (UnboundLocalError "out").
Proof.
  eexists. split; [reflexivity|].
  eapply (X6_unknown_skip_type_raises [728; 728; 728] "add" 1 1 false false
            _ (input_tensor [1; 8; 8; 728])).
  - discriminate.
  - discriminate.
  - reflexivity.
  - vm_compute. reflexivity.
Defined.

(** X7.  The shortcut of a projected block takes its channel count from
    the last filter count, the main path from the third: with more than
    three counts whose third and last differ (neither being 1) the call
    raises at the addition. *)
Theorem X7_projection_uses_last_filter (n0 n1 n2 : Z) (rest : list Z) (f : Z)
    (stride d : Z) (activation tap : bool) (blk : XceptionBlock)
    (x : Tensor) (b h w c : Z) :
  XceptionBlock_init (n0 :: n1 :: n2 :: rest) (Some "conv") stride d
    activation tap = Ok blk ->
  last (n0 :: n1 :: n2 :: rest) = Some f ->
  shape x = [b; h; w; c] -> 0 < h -> 0 < w -> 0 < c ->
  0 < n0 -> 0 < n1 -> 0 < n2 -> 0 < f -> 0 < stride ->
  incompatible n2 f ->
  XceptionBlock_call blk x = Raise (ValueError "Add").
Proof.
  intros Hinit Hlast Hx Hh Hw Hc H0 H1 H2 Hf Hs Hinc.
  assert (default n2 (last rest) = f) as Hf'.
  { destruct rest as [|r rest]; [cbn in *; congruence|].
    change (last (n0 :: n1 :: n2 :: r :: rest)) with (last (r :: rest)) in Hlast.
    by rewrite Hlast. }
  pose proof (XceptionBlock_init_cons3_inv _ _ _ _ _ _ _ _ _ _ Hinit)
    as (_ & _ & _ & Hok & _).
  rewrite XceptionBlock_init_cons3_ok in Hinit by (done || (intros _; lia)).
  injection Hinit as <-. rewrite Hf'.
  unfold XceptionBlock_call.
  cbn [sepconv_blocks skip_type return_skip add skipconv skipbn sepconv_loop].
  rewrite !(bool_decide_eq_true_2 (Some "conv" = Some "conv")) by done.
  cbn [attribute bind].
  destruct (SeparableConvBlock_shape n0 1 d activation x b h w c)
    as (r1 & -> & Hr1); try done.
  rewrite !ceil_div_1 in Hr1. cbn [bind].
  destruct (SeparableConvBlock_shape n1 1 d activation r1 b h w n0)
    as (r2 & -> & Hr2); try done.
  rewrite !ceil_div_1 in Hr2. cbn [bind].
  destruct (SeparableConvBlock_shape n2 stride d activation r2 b h w n1)
    as (r3 & -> & Hr3); try done.
  cbn [bind fst snd].
  destruct (ConvBlock_1x1_shape f stride x b h w c) as (p & -> & Hp); try done.
  cbn [bind].
  destruct (yields_bn p _ Hp) as (q & -> & Hq). cbn [bind].
  unfold call_layer. cbn [map layer_shape]. rewrite Hr3, Hq.
  rewrite add_incompatible by (right; right; done). reflexivity.
Qed.

Lemma X7_projection_uses_last_filter_witness :
  exists blk,
    XceptionBlock_init [64; 64; 64; 32] (Some "conv") 2 1 false false = Ok blk /\
    XceptionBlock_call blk (input_tensor [1; 8; 8; 16]) = Raise (ValueError "Add").
Proof.
  eexists. split; [reflexivity|].
  eapply (X7_projection_uses_last_filter 64 64 64 [32] 32 2 1 false false _
            (input_tensor [1; 8; 8; 16]) 1 8 8 16);
    try reflexivity; try lia.
  unfold incompatible. lia.
Defined.

(** X8.  On every input of positive size an Xception block that could
    be constructed returns: the fused output has the height and width
    divided by the stride, rounded up, and the third filter count; the
    tap has the input's height and width and the second filter count.  A
    projected block and a block without residual never raise; an additive
    one needs stride 1 and as many input channels as the third filter
    count. *)
Theorem X8_XceptionBlock_shapes (n0 n1 n2 : Z) (kind : SkipKind)
    (stride d : Z) (activation tap : bool) (blk : XceptionBlock)
    (x : Tensor) (b h w c : Z) :
  XceptionBlock_init [n0; n1; n2] (skip_name kind) stride d activation tap
    = Ok blk ->
  shape x = [b; h; w; c] -> 0 < h -> 0 < w -> 0 < c ->
  (kind = additive -> stride = 1 /\ c = n2) ->
  exists out skip,
    XceptionBlock_call blk x = Ok (if tap then VTuple out skip else VTensor out) /\
    shape out = [b; ceil_div h stride; ceil_div w stride; n2] /\
    shape skip = [b; h; w; n1].
Proof.
  intros Hinit Hx Hh Hw Hc Hadd.
  apply XceptionBlock_init_three_inv in Hinit
    as (H0 & H1 & H2 & (_ & Hs & _) & ->).
  by apply (xception_block_shape n0 n1 n2 kind stride d activation tap x b h w c).
Qed.

Lemma X8_XceptionBlock_shapes_witness :
  XceptionBlock_init [256; 256; 256] (Some "conv") 2 1 false true
    = Ok (xception_block 256 256 256 projected 2 1 false true) /\
  exists out skip,
    XceptionBlock_call (xception_block 256 256 256 projected 2 1 false true)
      (input_tensor [1; 63; 64; 128]) = Ok (VTuple out skip) /\
    shape out = [1; 32; 32; 256] /\
    shape skip = [1; 63; 64; 256].
Proof.
  split; [reflexivity|].
  apply (X8_XceptionBlock_shapes 256 256 256 projected 2 1 false true
           (xception_block 256 256 256 projected 2 1 false true)
           (input_tensor [1; 63; 64; 128]) 1 63 64 128);
    [reflexivity | reflexivity | lia | lia | lia | discriminate].
Defined.

(** *** The module in an arbitrary namespace *)

Lemma lookup_bound (globals : gset string) (id : string) :
  id ∈ globals -> lookup_name globals id = Ok tt.
Proof. intros H. unfold lookup_name. by rewrite bool_decide_eq_true_2. Qed.

Lemma lookup_builtin (globals : gset string) (id : string) :
  id ∈ builtins -> lookup_name globals id = Ok tt.
Proof.
  intros H. unfold lookup_name.
  rewrite (bool_decide_eq_true_2 (id ∈ builtins)) by done.
  by rewrite orb_true_r.
Qed.

Lemma lookup_unbound (globals : gset string) (id : string) :
  id ∉ globals -> id ∉ builtins -> lookup_name globals id = Raise (NameError id).
Proof.
  intros H1 H2. unfold lookup_name. by rewrite !bool_decide_eq_false_2.
Qed.

Lemma builtins_read :
  "super" ∈ builtins /\ "range" ∈ builtins /\ "enumerate" ∈ builtins /\
  "print" ∈ builtins.
Proof. repeat split; apply (bool_decide_unpack _); by vm_compute. Qed.

Ltac in_union :=
  first
    [ by apply elem_of_singleton
    | apply elem_of_union;
      first [ left; by apply elem_of_singleton | right; in_union ] ].

Ltac in_list := apply (bool_decide_unpack _); by vm_compute.

(** The ten statements before the model class run in every namespace
    and add the names they bind. *)
Lemma exec_prefix (G : gset string) :
  exists G',
    exec_module G (take 10 deeplabv3p_py) = Ok G' /\
    (forall id, id ∈ G' <->
       id ∈ G \/ id ∈ take 10 (bound_names deeplabv3p_py)).
Proof.
  cbn [take deeplabv3p_py exec_module exec_stmt bind eval_names eval_name
       layers_Layer].
  repeat (rewrite lookup_bound by in_union; cbn [bind]).
  eexists. split; [reflexivity|].
  intros id. cbn [bound_names map take deeplabv3p_py].
  rewrite !elem_of_union, !elem_of_singleton, !elem_of_cons, elem_of_nil.
  tauto.
Qed.

Lemma exec_split (G : gset string) :
  exec_module G deeplabv3p_py =
    (g <- exec_module G (take 10 deeplabv3p_py) ;;
     exec_module g (drop 10 deeplabv3p_py)).
Proof.
  cbn [take drop deeplabv3p_py exec_module].
  repeat (destruct (exec_stmt _ _); cbn [bind]; [|reflexivity]). reflexivity.
Qed.

Lemma Model_not_bound_by_prefix :
  "Model" ∉ take 10 (bound_names deeplabv3p_py).
Proof. in_list. Qed.

Lemma exec_with_Model (G : gset string) :
  "Model" ∈ G ->
  exists G',
    exec_module G deeplabv3p_py = Ok G' /\
    (forall id, id ∈ G' <-> id ∈ G \/ id ∈ bound_names deeplabv3p_py).
Proof.
  intros Hin. destruct (exec_prefix G) as (G0 & Hpre & HG0).
  rewrite exec_split, Hpre.
  cbn [bind drop deeplabv3p_py exec_module exec_stmt eval_names eval_name].
  rewrite lookup_bound by (apply HG0; by left). cbn [bind].
  eexists. split; [reflexivity|].
  intros id. rewrite elem_of_union, elem_of_singleton, HG0.
  cbn [bound_names deeplabv3p_py map take].
  rewrite !elem_of_cons, elem_of_nil. tauto.
Qed.


Lemma call_reads_bound (G : gset string) (reads : list string) :
  Forall (fun id => id ∈ G \/ id ∈ builtins) reads ->
  call_reads G reads = Ok tt.
Proof.
  unfold call_reads. induction 1 as [|id reads [Hid|Hid] _ IH];
    cbn [map eval_names eval_name]; [reflexivity| |].
  - by rewrite lookup_bound.
  - by rewrite lookup_builtin.
Qed.

(** Apart from [get_summary], every function of the module reads only
    names the module binds or builtins. *)
Lemma reads_checked :
  forallb (fun f : string * string * list string =>
             bool_decide (f.1 = ("DeepLabV3pXc", "get_summary"))
             || forallb (fun id =>
                           bool_decide (id ∈ bound_names deeplabv3p_py)
                           || bool_decide (id ∈ builtins)) f.2)
          (all_functions deeplabv3p_py) = true.
Proof. by vm_compute. Qed.



(** *** What the constructed layers never do *)

Lemma Forall_forallb_negb {A : Type} (f : A -> bool) (l : list A) :
  forallb (fun a => negb (f a)) l = true -> Forall (fun a => f a = false) l.
Proof.
  intros H. apply Forall_forall. intros a Ha.
  rewrite forallb_forall in H. apply negb_true_iff, H. by apply list_elem_of_In.
Qed.

Lemma DeepLabV3Decoder_init_raises (n_classes : Z) :
  n_classes <= 0 ->
  DeepLabV3Decoder_init n_classes = Raise (ValueError "Conv2D").
Proof.
  intros Hn. unfold DeepLabV3Decoder_init.
  rewrite BasicBlock_init_ok, !SeparableConvBlock_init_ok
    by (try lia; unfold conv_args_ok; lia).
  cbn [bind]. unfold construct at 1.
  destruct (Z.ltb_spec 0 n_classes); [lia|]. reflexivity.
Qed.


(** X12.  For every output stride, no convolution of the backbone or of
    the ASPP has a bias; in a decoder, which is constructed exactly when
    the class count is positive, exactly one layer has, the 1x1
    projection to the class count. *)
Theorem X12_only_class_projection_has_bias (output_stride n_classes : Z) :
  exists bb a,
    XceptionBackbone_init output_stride = Ok bb /\
    ASPP_init output_stride = Ok a /\
    Forall (fun l => has_bias l = false)
      (XceptionBackbone_layers bb ++ ASPP_layers a) /\
    match DeepLabV3Decoder_init n_classes with
    | Ok dec =>
        0 < n_classes /\
        List.filter has_bias (DeepLabV3Decoder_layers dec)
          = [Conv2D n_classes 1 1 same true 1]
    | Raise e => n_classes <= 0 /\ e = ValueError "Conv2D"
    end.
Proof.
  rewrite XceptionBackbone_init_eq, ASPP_init_eq.
  eexists _, _. split; [reflexivity|]. split; [reflexivity|]. split.
  - apply (Forall_forallb_negb has_bias).
    unfold aspp_of, d_rates_aspp.
    destruct (output_stride =? 8); vm_compute; reflexivity.
  - destruct (Z.ltb_spec 0 n_classes) as [Hn|Hn].
    + rewrite DeepLabV3Decoder_init_ok by done. split; [done|]. reflexivity.
    + by rewrite DeepLabV3Decoder_init_raises.
Qed.

(** *** Resolutions *)

Lemma ceil_div_8 (n : Z) :
  n mod 8 = 0 -> ceil_div (ceil_div (ceil_div (ceil_div n 2) 2) 2) 1 = n / 8.
Proof. unfold ceil_div. intros H. Z.div_mod_to_equations. lia. Qed.

Lemma ceil_div_16 (n : Z) :
  n mod 16 = 0 -> ceil_div (ceil_div (ceil_div (ceil_div n 2) 2) 2) 2 = n / 16.
Proof. unfold ceil_div. intros H. Z.div_mod_to_equations. lia. Qed.

(** X9.  The backbone returns on every image of positive size, whatever
    the output stride and without any divisibility: the skip map after
    two halvings rounded up with 256 channels, the deep map after three
    (output stride 8) or four (any other value) with 2048 channels. *)
Theorem X9_backbone_on_any_positive_size (output_stride : Z) (x : Tensor) (b h w c : Z) :
  shape x = [b; h; w; c] -> 0 < h -> 0 < w ->
  exists bb y skip,
    XceptionBackbone_init output_stride = Ok bb /\
    XceptionBackbone_call bb x = Ok (VTensor y, skip) /\
    shape skip = [b; ceil_div (ceil_div h 2) 2; ceil_div (ceil_div w 2) 2; 256] /\
    shape y =
      [b;
       ceil_div (ceil_div (ceil_div (ceil_div h 2) 2) 2)
         (if output_stride =? 8 then 1 else 2);
       ceil_div (ceil_div (ceil_div (ceil_div w 2) 2) 2)
         (if output_stride =? 8 then 1 else 2);
       2048].
Proof.
  intros Hx Hh Hw. rewrite XceptionBackbone_init_eq.
  destruct (output_stride =? 8).
  - destruct (backbone_of_shape 1 2 2 4 x b h w c) as (y & skip & ? & ? & ?);
      try done.
    by eexists _, y, skip.
  - destruct (backbone_of_shape 2 1 1 2 x b h w c) as (y & skip & ? & ? & ?);
      try done.
    by eexists _, y, skip.
Qed.

(** X10.  When the height and width are positive multiples of the
    effective stride (8 for output stride 8, 16 otherwise), the deep
    feature map has exactly the height and width divided by it. *)
Theorem X10_backbone_output_stride (output_stride : Z) (x : Tensor) (b h w c : Z) :
  shape x = [b; h; w; c] -> 0 < h -> 0 < w ->
  h mod effective_stride output_stride = 0 ->
  w mod effective_stride output_stride = 0 ->
  exists bb y skip,
    XceptionBackbone_init output_stride = Ok bb /\
    XceptionBackbone_call bb x = Ok (VTensor y, skip) /\
    shape y = [b; h / effective_stride output_stride;
               w / effective_stride output_stride; 2048].
Proof.
  intros Hx Hh Hw Hhm Hwm. rewrite XceptionBackbone_init_eq.
  unfold effective_stride in *.
  destruct (output_stride =? 8).
  - destruct (backbone_of_shape 1 2 2 4 x b h w c) as (y & skip & ? & ? & Hy);
      try done.
    eexists _, y, skip. split; [reflexivity|]. split; [done|].
    by rewrite Hy, !ceil_div_8.
  - destruct (backbone_of_shape 2 1 1 2 x b h w c) as (y & skip & ? & ? & Hy);
      try done.
    eexists _, y, skip. split; [reflexivity|]. split; [done|].
    by rewrite Hy, !ceil_div_16.
Qed.

Lemma X9_backbone_on_any_positive_size_witness :
  exists bb y skip,
    XceptionBackbone_init 16 = Ok bb /\
    XceptionBackbone_call bb (input_tensor [2; 5; 7; 3]) = Ok (VTensor y, skip) /\
    shape skip = [2; 2; 2; 256] /\
    shape y = [2; 1; 1; 2048].
Proof.
  apply (X9_backbone_on_any_positive_size 16 (input_tensor [2; 5; 7; 3]) 2 5 7 3);
    [reflexivity | lia | lia].
Defined.

Lemma X10_backbone_output_stride_witness :
  exists bb y skip,
    XceptionBackbone_init 8 = Ok bb /\
    XceptionBackbone_call bb (input_tensor [1; 256; 256; 3]) = Ok (VTensor y, skip) /\
    shape y = [1; 32; 32; 2048].
Proof.
  apply (X10_backbone_output_stride 8 (input_tensor [1; 256; 256; 3]) 1 256 256 3);
    [reflexivity | lia | lia | reflexivity | reflexivity].
Defined.

(** X13.  A decoder with a positive class count is constructed and
    returns a tensor of the height and width passed as [input_shape]
    with [n_classes] channels, whatever the (positive) resolutions of its
    two inputs; it is the sigmoid of a bilinear resize to [input_shape]. *)
Theorem X13_decoder_output (n_classes : Z) (x skip : Tensor)
    (b hx wx cx hs ws cs ih iw : Z) :
  shape x = [b; hx; wx; cx] -> shape skip = [b; hs; ws; cs] ->
  0 < hx -> 0 < wx -> 0 < hs -> 0 < ws -> 0 < ih -> 0 < iw ->
  0 < cx -> 0 < n_classes ->
  exists dec y scores,
    DeepLabV3Decoder_init n_classes = Ok dec /\
    DeepLabV3Decoder_call dec x skip [ih; iw] = Ok y /\
    shape y = [b; ih; iw; n_classes] /\
    value y = ECall (Activation "sigmoid") [EResize scores [ih; iw] "bilinear"].
Proof.
  intros Hx Hskip Hhx Hwx Hhs Hws Hih Hiw Hcx Hn.
  destruct (Decoder_shape n_classes x skip b hx wx cx hs ws cs ih iw)
    as (y & scores & Hcall & Hy & Hv); try done.
  exists (decoder_of n_classes), y, scores.
  split; [by apply DeepLabV3Decoder_init_ok|]. done.
Qed.

Lemma X13_decoder_output_witness :
  exists dec y scores,
    DeepLabV3Decoder_init 3 = Ok dec /\
    DeepLabV3Decoder_call dec
      (input_tensor [1; 16; 16; 256]) (input_tensor [1; 64; 64; 256]) [250; 251]
      = Ok y /\
    shape y = [1; 250; 251; 3] /\
    value y = ECall (Activation "sigmoid") [EResize scores [250; 251] "bilinear"].
Proof.
  apply (X13_decoder_output 3 (input_tensor [1; 16; 16; 256])
           (input_tensor [1; 64; 64; 256]) 1 16 16 256 64 64 256 250 251);
    [reflexivity | reflexivity | lia | lia | lia | lia | lia | lia | lia | lia].
Defined.

(** X14.  The bodies of [DeepLabV3pXc.__init__] and [call] compose
    backbone, ASPP and decoder so that, for every output stride, every
    positive class count and every image of positive size, the result has
    the image's height and width and [n_classes] channels. *)
Theorem X14_model_body_shape (output_stride n_classes : Z)
    (x : Tensor) (b h w c : Z) :
  shape x = [b; h; w; c] -> 0 < h -> 0 < w -> 0 < n_classes ->
  exists model y scores,
    DeepLabV3pXc_init output_stride n_classes = Ok model /\
    DeepLabV3pXc_call model x = Ok y /\
    shape y = [b; h; w; n_classes] /\
    value y = ECall (Activation "sigmoid") [EResize scores [h; w] "bilinear"].
Proof. apply DeepLabV3pXc_call_shape. Qed.

Lemma X14_model_body_shape_witness :
  exists model y scores,
    DeepLabV3pXc_init 16 2 = Ok model /\
    DeepLabV3pXc_call model (input_tensor [1; 100; 37; 3]) = Ok y /\
    shape y = [1; 100; 37; 2] /\
    value y = ECall (Activation "sigmoid") [EResize scores [100; 37] "bilinear"].
Proof.
  apply (X14_model_body_shape 16 2 (input_tensor [1; 100; 37; 3]) 1 100 37 3);
    [reflexivity | lia | lia | lia].
Defined.

